(** * git-share: the relay's blob store, the code scheme and the cipher wrapper

    A shallow embedding of the Go packages
      - [wordlist] (Words, Pick), in internal/wordlist/wordlist.go;
      - [server] (Config, handleSend, handleReceive, handleHealth; Blob,
        Store, Put, GetAndDelete, Cleanup, Count), in the same file;
      - [client] (Client.Send), in internal/client/client.go;
      - [crypto] (GenerateCode, ParseCode, DeriveKey, Encrypt, Decrypt), in
        the same file;
    followed by the properties of the specification that concern them.

    Conventions.
      - A Go [string] is a [string] (a sequence of 8-bit characters), a
        [[]byte] is a [list byte]; a slice that may be [nil] is an
        [option (list byte)] with [None] for [nil].
      - [time.Time] is an integer count of nanoseconds, [time.Duration] is
        an [int64] count of nanoseconds; the readings of the clock are
        passed to the operations that call [time.Now].
      - Every method of [Store] runs with the store's mutex held, so each
        one is an atomic transition on the map of blobs. *)

From Stdlib Require Import ZArith Lia.
From Stdlib.Strings Require Import Ascii String Byte.
From stdpp Require Import gmap strings list fin_maps pretty.

Local Open Scope string_scope.
Local Open Scope Z_scope.

(** ** Go base types *)

Module Go.

(** [int64] arithmetic wraps around. *)
Definition minInt64 : Z := - 2 ^ 63.
Definition maxInt64 : Z := 2 ^ 63 - 1.

Definition wrap64 (z : Z) : Z := (z + 2 ^ 63) mod 2 ^ 64 - 2 ^ 63.

Definition mul64 (a b : Z) : Z := wrap64 (a * b).

(** A Go [error] is represented by its message; [fmt.Errorf("p: %w", e)]
    is the message [p ++ ": " ++ e]. *)
Definition error := string.

Definition wrapf (prefix : string) (e : error) : error :=
  prefix +:+ ": " +:+ e.

(** The outcome of a call that returns [(T, error)] and may panic. *)
Inductive result (A : Type) : Type :=
| Ok (a : A)
| Err (e : error)
| Panic.
Global Arguments Ok {A} a.
Global Arguments Err {A} e.
Global Arguments Panic {A}.

(** [[]byte(s)] and [string(b)]. *)
Definition bytes_of_string (s : string) : list byte := list_byte_of_string s.
Definition string_of_bytes (b : list byte) : string := string_of_list_byte b.

(** [s[i]] and [a[i]]: an index out of range panics. *)
Definition string_index (s : string) (i : Z) : result ascii :=
  if i <? 0 then Panic
  else match String.get (Z.to_nat i) s with
       | Some c => Ok c
       | None => Panic
       end.

Definition slice_index {A : Type} (a : list A) (i : Z) : result A :=
  if i <? 0 then Panic
  else match a !! Z.to_nat i with
       | Some x => Ok x
       | None => Panic
       end.

(** Calls that use a source of randomness thread its state [S] and stop
    at the first error or panic. *)
Definition M (S A : Type) : Type := S -> result A * S.

Definition ret {S A : Type} (a : A) : M S A := fun s => (Ok a, s).

Definition bind {S A B : Type} (m : M S A) (k : A -> M S B) : M S B :=
  fun s =>
    match m s with
    | (Ok a, s') => k a s'
    | (Err e, s') => (Err e, s')
    | (Panic, s') => (Panic, s')
    end.

(** [if err != nil { return ..., fmt.Errorf("prefix: %w", err) }] *)
Definition wrap_err {S A : Type} (prefix : string) (m : M S A) : M S A :=
  fun s =>
    match m s with
    | (Err e, s') => (Err (wrapf prefix e), s')
    | r => r
    end.

Definition lift {S A : Type} (r : result A) : M S A := fun s => (r, s).

End Go.

Notation "'let*' x ':=' m 'in' k" := (Go.bind m (fun x => k))
  (at level 10, x name, m at level 100, k at level 200,
   format "'[v' 'let*'  x  ':='  m  'in' '/' k ']'").

(** ** Package strings *)

Module strings.

(** [strip_prefix p s] is [Some (s[len(p):])] when [p] is a prefix of [s]. *)
Fixpoint strip_prefix (p s : string) : option string :=
  match p, s with
  | EmptyString, _ => Some s
  | String a p', String b s' =>
      if Ascii.eqb a b then strip_prefix p' s' else None
  | String _ _, EmptyString => None
  end.

(** With [m := Index(s, sep)], [cut sep s] is [Some (s[:m], s[m+len(sep):])]
    when [m >= 0], and [None] when [sep] does not occur in [s]. *)
Fixpoint cut (sep s : string) : option (string * string) :=
  match strip_prefix sep s with
  | Some rest => Some ("", rest)
  | None =>
      match s with
      | EmptyString => None
      | String c s' =>
          match cut sep s' with
          | Some (a, b) => Some (String c a, b)
          | None => None
          end
      end
  end.

(** [Count(s, sep)] for a non-empty [sep]: the number of non-overlapping
    instances of [sep] in [s]. *)
Fixpoint Count_loop (fuel : nat) (sep s : string) : Z :=
  match fuel with
  | O => 0
  | S fuel' =>
      match cut sep s with
      | None => 0
      | Some (_, rest) => 1 + Count_loop fuel' sep rest
      end
  end.

Definition Count (s sep : string) : Z := Count_loop (String.length s) sep s.

(** [explode(s, n)], for a string of one-byte characters. *)
Fixpoint explode_loop (k : nat) (s : string) : list string :=
  match s with
  | EmptyString => []
  | String c s' =>
      match k with
      | O => [s]
      | S k' => String c "" :: explode_loop k' s'
      end
  end.

Definition explode (s : string) (n : Z) : list string :=
  let l := Z.of_nat (String.length s) in
  let n := if (n <? 0) || (l <? n) then l else n in
  if n <=? 0 then [] else explode_loop (Z.to_nat (n - 1)) s.

(** The loop of [genSplit]: at most [k] cuts, the rest is the last piece. *)
Fixpoint split_loop (k : nat) (sep s : string) : list string :=
  match k with
  | O => [s]
  | S k' =>
      match cut sep s with
      | None => [s]
      | Some (a, rest) => a :: split_loop k' sep rest
      end
  end.

(** [genSplit(s, sep, 0, n)]. *)
Definition genSplit (s sep : string) (n : Z) : list string :=
  if n =? 0 then []
  else if String.eqb sep "" then explode s n
  else
    let n := if n <? 0 then Count s sep + 1 else n in
    let n := if Z.of_nat (String.length s) + 1 <? n
             then Z.of_nat (String.length s) + 1 else n in
    split_loop (Z.to_nat (n - 1)) sep s.

Definition SplitN (s sep : string) (n : Z) : list string := genSplit s sep n.

Definition Split (s sep : string) : list string := genSplit s sep (-1).

Fixpoint Join (elems : list string) (sep : string) : string :=
  match elems with
  | [] => ""
  | [a] => a
  | a :: rest => a +:+ sep +:+ Join rest sep
  end.

End strings.

(** ** Package crypto/rand *)

Module rand.

(** [rand.Reader] as a state; [Read n] is [rand.Read(b)] for a buffer
    [b] of [n] bytes and returns its new contents, [Int max] is
    [rand.Int(rand.Reader, max)]. *)
Class Reader : Type := {
  state : Type;
  Read : nat -> Go.M state (list byte);
  Int : Z -> Go.M state Z
}.

(** [Read] fills the whole buffer. *)
Class ReaderLaws (R : Reader) : Prop := {
  Read_length : forall n r b r',
    Read n r = (Go.Ok b, r') -> length b = n
}.

(** [Int max] returns a number in [[0, max)] and panics only for
    [max <= 0]. *)
Class IntLaws (R : Reader) : Prop := {
  Int_range : forall max r n r',
    Int max r = (Go.Ok n, r') -> 0 <= n < max;
  Int_no_panic : forall max r,
    0 < max -> (Int max r).1 <> Go.Panic
}.

End rand.

(** ** Package wordlist *)

Module wordlist.

Definition Words : list string := [
  "acid"; "acme"; "aged"; "also"; "arch"; "aqua"; "area"; "atom";
  "aunt"; "avid"; "axis"; "back"; "bald"; "band"; "bark"; "barn";
  "base"; "bath"; "bean"; "bear"; "beat"; "belt"; "bend"; "bike";
  "bird"; "bite"; "blow"; "blue"; "blur"; "boat"; "bold"; "bolt";
  "bomb"; "bond"; "bone"; "book"; "boot"; "bore"; "boss"; "bowl";
  "bulk"; "bump"; "burn"; "buzz"; "cafe"; "cage"; "cake"; "calm";
  "came"; "camp"; "cape"; "card"; "care"; "cart"; "case"; "cash";
  "cast"; "cave"; "chat"; "chip"; "chop"; "city"; "clad"; "clam";
  "clan"; "claw"; "clay"; "clip"; "club"; "clue"; "coal"; "coat";
  "code"; "coil"; "coin"; "cold"; "colt"; "cone"; "cook"; "cool";
  "cope"; "copy"; "cord"; "core"; "corn"; "cost"; "cozy"; "crew";
  "crop"; "crow"; "cube"; "curl"; "cute"; "damp"; "dare"; "dark";
  "dart"; "dash"; "dawn"; "deal"; "dear"; "deck"; "deed"; "deep";
  "deer"; "demo"; "dent"; "desk"; "dial"; "dice"; "dime"; "dock";
  "dome"; "door"; "dose"; "dove"; "down"; "draw"; "drip"; "drop";
  "drum"; "dull"; "dune"; "dusk"; "dust"; "each"; "earl"; "earn";
  "ease"; "east"; "echo"; "edge"; "edit"; "else"; "epic"; "even";
  "ever"; "evil"; "exam"; "exit"; "face"; "fact"; "fade"; "fail";
  "fair"; "fall"; "fame"; "fang"; "farm"; "fast"; "fate"; "fawn";
  "fear"; "feat"; "feed"; "feel"; "file"; "fill"; "film"; "find";
  "fine"; "fire"; "firm"; "fish"; "fist"; "five"; "flag"; "flat";
  "fled"; "flex"; "flip"; "flow"; "foam"; "fold"; "folk"; "fond";
  "font"; "food"; "foot"; "ford"; "fork"; "form"; "fort"; "foul";
  "four"; "free"; "frog"; "from"; "fuel"; "full"; "fund"; "fury";
  "fuse"; "gain"; "gait"; "gale"; "game"; "gang"; "gate"; "gave";
  "gaze"; "gear"; "gene"; "gift"; "glad"; "glow"; "glue"; "goat";
  "gold"; "golf"; "gone"; "good"; "grab"; "gray"; "grew"; "grid";
  "grim"; "grin"; "grip"; "grit"; "grow"; "gulf"; "guru"; "gust";
  "half"; "hall"; "halt"; "hand"; "hang"; "hard"; "harm"; "harp";
  "hash"; "haste"; "hate"; "haul"; "hawk"; "haze"; "head"; "heal";
  "heap"; "heat"; "held"; "helm"; "help"; "herb"; "herd"; "hero";
  "hide"; "high"; "hike"; "hill"; "hint"; "hire"; "hold"; "hole"
].

Section Pick.
Context {R : rand.Reader}.

(** The loop of [Pick]: [words[i] = Words[idx.Int64()]] for each of
    the [n] slots in turn. *)
Fixpoint Pick_loop (n : nat) : Go.M rand.state (list string) :=
  match n with
  | O => Go.ret []
  | S n' =>
      let* idx := rand.Int (Z.of_nat (length Words)) in
      let* w := Go.lift (Go.slice_index Words idx) in
      let* rest := Pick_loop n' in
      Go.ret (w :: rest)
  end.

(** [make([]string, n)] panics for a negative [n]. *)
Definition Pick (n : Z) (sep : string) : Go.M rand.state string :=
  if n <? 0 then Go.lift Go.Panic
  else
    let* words := Pick_loop (Z.to_nat n) in
    Go.ret (strings.Join words sep).
End Pick.

End wordlist.

(** ** Packages golang.org/x/crypto/chacha20poly1305 and hkdf

    The two primitives are parameters of the development. *)

Module chacha20poly1305.

Definition KeySize : nat := 32.
Definition NonceSizeX : nat := 24.
Definition Overhead : nat := 16.

(** XChaCha20-Poly1305 under a 32-byte key: [seal key nonce plaintext ad]
    is what [Seal] appends to [dst]; [open key nonce ciphertext ad] is
    [None] when [Open] reports a failed authentication. The sizes at which
    the library panics (a nonce of another length, a plaintext above
    2^38 - 64 bytes) are left out. *)
Class AEAD : Type := {
  seal : list byte -> list byte -> list byte -> list byte -> list byte;
  open : list byte -> list byte -> list byte -> list byte -> option (list byte)
}.

Class AEADLaws (A : AEAD) : Prop := {
  open_seal : forall key nonce plaintext ad,
    open key nonce (seal key nonce plaintext ad) ad = Some plaintext;
  open_short : forall key nonce ciphertext ad,
    (length ciphertext < Overhead)%nat -> open key nonce ciphertext ad = None
}.

Definition errOpen : Go.error :=
  "chacha20poly1305: message authentication failed".

(** [NewX(key)]: the cipher keeps the key. *)
Definition NewX (key : list byte) : Go.result (list byte) :=
  if Nat.eqb (length key) KeySize then Go.Ok key
  else Go.Err "chacha20poly1305: bad key length".

Definition NonceSize (aead : list byte) : nat := NonceSizeX.

Section Cipher.
Context {A : AEAD}.

Definition Seal (aead dst nonce plaintext ad : list byte) : list byte :=
  dst ++ seal aead nonce plaintext ad.

Definition Open (aead nonce ciphertext ad : list byte)
    : Go.result (list byte) :=
  match open aead nonce ciphertext ad with
  | Some plaintext => Go.Ok plaintext
  | None => Go.Err errOpen
  end.
End Cipher.

End chacha20poly1305.

Module hkdf.

(** [io.ReadFull(hkdf.New(sha256.New, secret, salt, info), out)] for a
    buffer [out] of [n] bytes. *)
Class HKDF : Type := {
  ReadFull : list byte -> list byte -> list byte -> nat -> Go.result (list byte)
}.

(** HKDF over SHA-256 delivers up to [255 * 32] bytes. *)
Class HKDFLaws (H : HKDF) : Prop := {
  ReadFull_ok : forall secret salt info n,
    (n <= 255 * 32)%nat ->
    exists out, ReadFull secret salt info n = Go.Ok out /\ length out = n
}.

End hkdf.

(** ** Package crypto *)

Module crypto.

Definition CodeIDLength : nat := 10.
Definition PassphraseWords : Z := 4.
Definition PassphraseSep : string := "-".
Definition CodeSep : string := "-".
Definition hkdfSalt : string := "git-share-v1".
Definition hkdfInfo : string := "encryption-key".

Definition base62Chars : string :=
  "0123456789ABCDEFGHIJKLMNOPQRSTUVWXYZabcdefghijklmnopqrstuvwxyz".

Definition ErrInvalidFormat : Go.error :=
  "invalid code format: expected <codeId>-<word1>-<word2>-<word3>-<word4>".

Definition ParseCode (code : string) : Go.result (string * string) :=
  let parts := strings.SplitN code CodeSep 2 in
  match parts with
  | [p0; p1] =>
      if String.eqb p0 "" || String.eqb p1 "" then Go.Err ErrInvalidFormat
      else
        let words := strings.Split p1 PassphraseSep in
        if negb (Z.of_nat (length words) =? PassphraseWords)
        then Go.Err ("invalid code format: passphrase should have "
                       +:+ pretty PassphraseWords +:+ " words, got "
                       +:+ pretty (length words))
        else Go.Ok (p0, p1)
  | _ => Go.Err ErrInvalidFormat
  end.

Section Generate.
Context {R : rand.Reader}.

(** The loop of [generateCodeID]: [b[i] = base62Chars[idx.Int64()]]
    for each of the [n] bytes of [b] in turn. *)
Fixpoint generateCodeID_loop (n : nat) : Go.M rand.state string :=
  match n with
  | O => Go.ret ""
  | S n' =>
      let* idx := rand.Int (Z.of_nat (String.length base62Chars)) in
      let* c := Go.lift (Go.string_index base62Chars idx) in
      let* rest := generateCodeID_loop n' in
      Go.ret (String c rest)
  end.

Definition generateCodeID : Go.M rand.state string :=
  generateCodeID_loop CodeIDLength.

Definition GenerateCode : Go.M rand.state (string * string * string) :=
  let* codeID := Go.wrap_err "generating code ID" generateCodeID in
  let* passphrase :=
    Go.wrap_err "generating passphrase"
      (wordlist.Pick PassphraseWords PassphraseSep) in
  let code := codeID +:+ CodeSep +:+ passphrase in
  Go.ret (code, codeID, passphrase).
End Generate.

Section Cipher.
Context {R : rand.Reader} {A : chacha20poly1305.AEAD} {H : hkdf.HKDF}.

Definition DeriveKey (passphrase : string) : Go.result (list byte) :=
  match hkdf.ReadFull (Go.bytes_of_string passphrase)
          (Go.bytes_of_string hkdfSalt) (Go.bytes_of_string hkdfInfo)
          chacha20poly1305.KeySize with
  | Go.Ok key => Go.Ok key
  | Go.Err e => Go.Err (Go.wrapf "deriving key" e)
  | Go.Panic => Go.Panic
  end.

Definition Encrypt (plaintext key : list byte)
    : Go.M rand.state (list byte) :=
  match chacha20poly1305.NewX key with
  | Go.Ok aead =>
      let* nonce :=
        Go.wrap_err "generating nonce"
          (rand.Read (chacha20poly1305.NonceSize aead)) in
      let ciphertext := chacha20poly1305.Seal aead nonce nonce plaintext [] in
      Go.ret ciphertext
  | Go.Err e => Go.lift (Go.Err (Go.wrapf "creating cipher" e))
  | Go.Panic => Go.lift Go.Panic
  end.

Definition Decrypt (ciphertext key : list byte) : Go.result (list byte) :=
  match chacha20poly1305.NewX key with
  | Go.Ok aead =>
      let nonceSize := chacha20poly1305.NonceSize aead in
      if (length ciphertext <? nonceSize)%nat
      then Go.Err "ciphertext too short"
      else
        let nonce := take nonceSize ciphertext in
        let encrypted := drop nonceSize ciphertext in
        match chacha20poly1305.Open aead nonce encrypted [] with
        | Go.Ok plaintext => Go.Ok plaintext
        | Go.Err e =>
            Go.Err (Go.wrapf "decryption failed (wrong passphrase?)" e)
        | Go.Panic => Go.Panic
        end
  | Go.Err e => Go.Err (Go.wrapf "creating cipher" e)
  | Go.Panic => Go.Panic
  end.
End Cipher.

End crypto.

(** ** Package time *)

Module time.

Definition Time := Z.
Definition Duration := Z.

Definition Nanosecond : Duration := 1.
Definition Millisecond : Duration := 1000000.
Definition Second : Duration := 1000000000.
Definition Hour : Duration := 3600 * Second.

(** [t.Sub(u)]: the difference, saturated to the range of [Duration]. *)
Definition Sub (t u : Time) : Duration :=
  let d := t - u in
  if d <? Go.minInt64 then Go.minInt64
  else if Go.maxInt64 <? d then Go.maxInt64
  else d.

(** [time.Since(t)] is [time.Now().Sub(t)]. *)
Definition Since (now t : Time) : Duration := Sub now t.

(** [t.Add(d)]. *)
Definition Add (t : Time) (d : Duration) : Time := t + d.

(** [t.Format(time.RFC3339)], for a clock whose location is UTC and whose
    zero is the Unix epoch. The layout has a resolution of one second:
    the fraction of the second is dropped. *)
Definition civil_from_days (z : Z) : Z * Z * Z :=
  let z := z + 719468 in
  let era := z / 146097 in
  let doe := z - era * 146097 in
  let yoe := (doe - doe / 1460 + doe / 36524 - doe / 146096) / 365 in
  let doy := doe - (365 * yoe + yoe / 4 - yoe / 100) in
  let mp := (5 * doy + 2) / 153 in
  let d := doy - (153 * mp + 2) / 5 + 1 in
  let m := if mp <? 10 then mp + 3 else mp - 9 in
  let y := yoe + era * 400 in
  (if m <=? 2 then y + 1 else y, m, d).

Definition digits2 (n : Z) : string :=
  if n <? 10 then "0" +:+ pretty n else pretty n.

Definition digits4 (n : Z) : string :=
  if n <? 10 then "000" +:+ pretty n
  else if n <? 100 then "00" +:+ pretty n
  else if n <? 1000 then "0" +:+ pretty n
  else pretty n.

Definition Unix (t : Time) : Z := t / Second.

Definition Format_RFC3339 (t : Time) : string :=
  let sec := Unix t in
  let '(y, m, d) := civil_from_days (sec / 86400) in
  let rem := sec mod 86400 in
  digits4 y +:+ "-" +:+ digits2 m +:+ "-" +:+ digits2 d +:+ "T"
    +:+ digits2 (rem / 3600) +:+ ":" +:+ digits2 (rem mod 3600 / 60)
    +:+ ":" +:+ digits2 (rem mod 60) +:+ "Z".

End time.

(** ** Package server: the blob store *)

Module server.

Record Blob : Type := mkBlob {
  Data : option (list byte);
  CreatedAt : time.Time;
  TTL : time.Duration
}.

Record Store : Type := mkStore {
  blobs : gmap string Blob
}.

Definition NewStore : Store := mkStore ∅.

(** [Put]: [now] is the reading of [time.Now()] taken for [CreatedAt]. *)
Definition Put (now : time.Time) (codeID : string) (data : option (list byte))
    (ttl : time.Duration) (s : Store) : bool * Store :=
  match blobs s !! codeID with
  | Some _ => (false, s)
  | None =>
      (true, mkStore (<[codeID := mkBlob data now ttl]> (blobs s)))
  end.

(** The test [time.Since(blob.CreatedAt) > blob.TTL]. *)
Definition expired (now : time.Time) (b : Blob) : bool :=
  TTL b <? time.Since now (CreatedAt b).

(** [GetAndDelete]: [now] is the reading of the clock inside [time.Since].
    [None] is the [nil] slice. *)
Definition GetAndDelete (now : time.Time) (codeID : string) (s : Store)
    : option (list byte) * Store :=
  match blobs s !! codeID with
  | None => (None, s)
  | Some blob =>
      if expired now blob
      then (None, mkStore (delete codeID (blobs s)))
      else (Data blob, mkStore (delete codeID (blobs s)))
  end.

(** [Cleanup]: one pass over the entries of the map; an entry whose age
    exceeds its TTL is deleted and counted. *)
Definition Cleanup_step (now : time.Time) (id : string) (blob : Blob)
    (acc : Z * gmap string Blob) : Z * gmap string Blob :=
  if expired now blob then (acc.1 + 1, delete id acc.2) else acc.

Definition Cleanup (now : time.Time) (s : Store) : Z * Store :=
  let r := map_fold (Cleanup_step now) (0, blobs s) (blobs s) in
  (r.1, mkStore r.2).

(** [Count] is [len(s.blobs)]. *)
Definition Count (s : Store) : Z := Z.of_nat (size (blobs s)).

(** *** The HTTP handlers *)

Record Config : Type := mkConfig {
  Port : Z;
  MaxSize : Z;
  MaxTTL : time.Duration
}.

Definition DefaultConfig : Config :=
  mkConfig 3141 (10 * 1024 * 1024) time.Hour.

Record SendRequest : Type := mkSendRequest {
  req_CodeID : string;
  req_Data : string;
  req_TTL : Z
}.

Record SendResponse : Type := mkSendResponse {
  send_OK : bool;
  send_Expiry : string;
  send_Error : string
}.

Record ReceiveResponse : Type := mkReceiveResponse {
  recv_OK : bool;
  recv_Data : string;
  recv_Error : string
}.

Record HealthResponse : Type := mkHealthResponse {
  health_ok : bool;
  health_blobs : Z
}.

(** What [writeJSON(w, status, v)] leaves in the response writer. *)
Record Response (B : Type) : Type := writeJSON {
  status : Z;
  body : B
}.
Global Arguments writeJSON {B} status body.
Global Arguments status {B} r.
Global Arguments body {B} r.

Definition StatusOK : Z := 200.
Definition StatusCreated : Z := 201.
Definition StatusBadRequest : Z := 400.
Definition StatusNotFound : Z := 404.
Definition StatusConflict : Z := 409.

(** The body of a request to [POST /api/send]: the number of bytes the
    JSON decoder has to read for the first value of the body, and what
    that value decodes to ([None]: not a JSON object for [SendRequest]). *)
Record SendBody : Type := mkSendBody {
  body_len : Z;
  body_json : option SendRequest
}.

(** [json.NewDecoder(http.MaxBytesReader(w, r.Body, MaxSize)).Decode(&req)]:
    the reader fails once more than [MaxSize] bytes are asked of it. *)
Definition Decode (config : Config) (b : SendBody) : option SendRequest :=
  if MaxSize config <? body_len b then None else body_json b.

(** [handleSend]: [now_put] is the reading of the clock inside [Put],
    [now_resp] the later reading in [time.Now().Add(ttl)]. *)
Definition handleSend (config : Config) (now_put now_resp : time.Time)
    (r : SendBody) (s : Store) : Response SendResponse * Store :=
  match Decode config r with
  | None =>
      (writeJSON StatusBadRequest
         (mkSendResponse false "" "invalid request body"), s)
  | Some req =>
      if String.eqb (req_CodeID req) "" || String.eqb (req_Data req) ""
      then (writeJSON StatusBadRequest
              (mkSendResponse false "" "code_id and data are required"), s)
      else
        let ttl := MaxTTL config in
        let ttl :=
          if 0 <? req_TTL req then
            let requested := Go.mul64 (req_TTL req) time.Second in
            if requested <? ttl then requested else ttl
          else ttl in
        let '(ok, s') :=
          Put now_put (req_CodeID req)
            (Some (Go.bytes_of_string (req_Data req))) ttl s in
        if negb ok
        then (writeJSON StatusConflict
                (mkSendResponse false "" "code ID already exists, try again"),
              s')
        else
          let expiry := time.Add now_resp ttl in
          (writeJSON StatusCreated
             (mkSendResponse true (time.Format_RFC3339 expiry) ""), s')
  end.

(** [handleReceive]: [id] is [r.PathValue("id")]. *)
Definition handleReceive (now : time.Time) (id : string) (s : Store)
    : Response ReceiveResponse * Store :=
  if String.eqb id ""
  then (writeJSON StatusBadRequest
          (mkReceiveResponse false "" "missing code ID"), s)
  else
    let '(data, s') := GetAndDelete now id s in
    match data with
    | None =>
        (writeJSON StatusNotFound
           (mkReceiveResponse false "" "not found or expired"), s')
    | Some d =>
        (writeJSON StatusOK
           (mkReceiveResponse true (Go.string_of_bytes d) ""), s')
    end.

Definition handleHealth (s : Store) : Response HealthResponse :=
  writeJSON StatusOK (mkHealthResponse true (Count s)).

(** *** formatBytes

    [format_ratio b div] stands for [fmt.Sprintf("%.1f", float64(b)/float64(div))].
    The loop has no bound in the source; here it gives up ([None]) after 64
    rounds, more than an [int64] can need. *)

Definition unit : Z := 1024.

Fixpoint formatBytes_loop (fuel : nat) (n div exp : Z) : option (Z * Z) :=
  match fuel with
  | O => None
  | S fuel' =>
      if unit <=? n
      then formatBytes_loop fuel' (Z.quot n unit) (Go.mul64 div unit) (exp + 1)
      else Some (div, exp)
  end.

Section formatBytes.
Variable format_ratio : Z -> Z -> string.

Definition formatBytes (b : Z) : option (Go.result string) :=
  if b <? unit then Some (Go.Ok (pretty b +:+ " B"))
  else
    match formatBytes_loop 64 (Z.quot b unit) unit 0 with
    | None => None
    | Some (div, exp) =>
        Some match Go.string_index "KMGTPE" exp with
             | Go.Ok c => Go.Ok (format_ratio b div +:+ " " +:+ String c "B")
             | Go.Err e => Go.Err e
             | Go.Panic => Go.Panic
             end
    end.
End formatBytes.

End server.

(** ** Package client *)

Module client.

Record SendRequest : Type := mkSendRequest {
  req_CodeID : string;
  req_Data : string;
  req_TTL : Z
}.

Record SendResponse : Type := mkSendResponse {
  send_OK : bool;
  send_Expiry : string;
  send_Error : string
}.

(** What [c.httpClient.Post], [io.ReadAll(resp.Body)] and
    [json.Unmarshal(respBody, &sendResp)] yield, in this order: the first
    error, or the status code and the decoded body. *)
Inductive Exchange : Type :=
| PostFailed (e : Go.error)
| ReadAllFailed (e : Go.error)
| UnmarshalFailed (e : Go.error)
| Answer (StatusCode : Z) (sendResp : SendResponse).

Record Client : Type := mkClient {
  baseURL : string;
  httpClient_Post : string -> SendRequest -> Exchange
}.

(** [Send]. [json.Marshal] does not fail on a [SendRequest]. *)
Definition Send (c : Client) (codeID data : string) (ttlSeconds : Z)
    : Go.result SendResponse :=
  let reqBody := mkSendRequest codeID data ttlSeconds in
  match httpClient_Post c (baseURL c +:+ "/api/send") reqBody with
  | PostFailed e =>
      Go.Err ("connecting to relay server at " +:+ baseURL c +:+ ": " +:+ e)
  | ReadAllFailed e => Go.Err (Go.wrapf "reading response" e)
  | UnmarshalFailed e => Go.Err (Go.wrapf "parsing response" e)
  | Answer _ sendResp =>
      if negb (send_OK sendResp)
      then Go.Err ("server error: " +:+ send_Error sendResp)
      else Go.Ok sendResp
  end.

Record ReceiveResponse : Type := mkReceiveResponse {
  recv_OK : bool;
  recv_Data : string;
  recv_Error : string
}.

(** What [c.httpClient.Get], [io.ReadAll] and [json.Unmarshal] yield in
    [Receive], in this order. *)
Inductive GetExchange : Type :=
| GetFailed (e : Go.error)
| GetReadAllFailed (e : Go.error)
| GetUnmarshalFailed (e : Go.error)
| GetAnswer (StatusCode : Z) (recvResp : ReceiveResponse).

Definition StatusNotFound : Z := 404.

Definition ErrPatchNotFound : Go.error :=
  "patch not found â€” it may have already been received or expired".

(** [Receive]; [httpClient_Get] is [c.httpClient.Get]. *)
Definition Receive (c : Client) (httpClient_Get : string -> GetExchange)
    (codeID : string) : Go.result string :=
  match httpClient_Get (baseURL c +:+ "/api/receive/" +:+ codeID) with
  | GetFailed e =>
      Go.Err ("connecting to relay server at " +:+ baseURL c +:+ ": " +:+ e)
  | GetReadAllFailed e => Go.Err (Go.wrapf "reading response" e)
  | GetUnmarshalFailed e => Go.Err (Go.wrapf "parsing response" e)
  | GetAnswer StatusCode recvResp =>
      if negb (recv_OK recvResp)
      then
        if StatusCode =? StatusNotFound then Go.Err ErrPatchNotFound
        else Go.Err ("server error: " +:+ recv_Error recvResp)
      else Go.Ok (recv_Data recvResp)
  end.

(** [New]: the HTTP client of a [Client] made for [baseURL] is the
    network as this program sees it. *)
Definition New (network_Post : string -> SendRequest -> Exchange)
    (baseURL : string) : Client :=
  mkClient baseURL network_Post.

End client.

(** ** The JSON contract between the two ends

    The fields of the request and of the response travel unchanged. *)

Module wire.

Definition request_to_server (req : client.SendRequest) : server.SendRequest :=
  server.mkSendRequest (client.req_CodeID req) (client.req_Data req)
    (client.req_TTL req).

Definition response_to_client (resp : server.SendResponse) : client.SendResponse :=
  client.mkSendResponse (server.send_OK resp) (server.send_Expiry resp)
    (server.send_Error resp).

(** A relay in state [s] on the other end of [httpClient.Post]; [len] is the
    length of the marshalled request. *)
Definition relay_Post (config : server.Config) (now_put now_resp : time.Time)
    (s : server.Store) (len : Z) (url : string) (req : client.SendRequest)
    : client.Exchange :=
  let r := (server.handleSend config now_put now_resp
              (server.mkSendBody len (Some (request_to_server req))) s).1 in
  client.Answer (server.status r) (response_to_client (server.body r)).

Definition receive_to_client (resp : server.ReceiveResponse)
    : client.ReceiveResponse :=
  client.mkReceiveResponse (server.recv_OK resp) (server.recv_Data resp)
    (server.recv_Error resp).

(** A relay in state [s] on the other end of [httpClient.Get], for a
    request whose path ends in the segment [id]. *)
Definition relay_Get (now : time.Time) (s : server.Store) (id : string)
    (url : string) : client.GetExchange :=
  let r := (server.handleReceive now id s).1 in
  client.GetAnswer (server.status r) (receive_to_client (server.body r)).

End wire.

(** ** Package encoding/base64

    [base64.StdEncoding] is a parameter of the development. *)

Module base64.

Class Encoding : Type := {
  EncodeToString : list byte -> string;
  DecodeString : string -> Go.result (list byte)
}.

(** Decoding undoes encoding, and only the empty input encodes to the
    empty string. *)
Class EncodingLaws (E : Encoding) : Prop := {
  Decode_Encode : forall b, DecodeString (EncodeToString b) = Go.Ok b;
  Encode_nonempty : forall b, b <> [] -> EncodeToString b <> ""
}.

End base64.

(** ** Package git

    The functions of the package run the [git] program; what they return
    in one run of a command is a parameter. *)

Module git.

Record Repo : Type := mkRepo {
  FindRepoRoot : Go.result string;
  GetCommitPatch : string -> Go.result (list byte);
  GetStagedDiff : Go.result (list byte);
  GetDiff : Go.result (list byte);
  ApplyPatch : list byte -> bool -> Go.result unit;
  PatchStats : list byte -> string
}.

End git.

(** ** Package cmd: the send and receive commands *)

Module cmd.

Definition nl : string := String (ascii_of_nat 10) "".

(** What a run of a command does to the world, in order: what it writes,
    and the calls it makes to its collaborators. *)
Inductive event : Type :=
| Stdout (text : string)
| Stderr (text : string)
| FindRepoRoot_called
| GetCommitPatch_called (ref : string)
| GetStagedDiff_called
| GetDiff_called
| GenerateCode_called
| DeriveKey_called (passphrase : string)
| Encrypt_called (data key : list byte)
| Send_called (codeID data : string) (ttl : Z)
| Receive_called (codeID : string)
| ApplyPatch_called (patch : list byte) (forceAm : bool)
| PatchStats_called (patch : list byte).

(** A run: the events so far, and the value or the error it ends with. *)
Definition Run (A : Type) : Type := (list event * Go.result A)%type.

Definition done {A : Type} (a : A) : Run A := ([], Go.Ok a).

Definition emit (e : event) : Run unit := ([e], Go.Ok tt).

Definition call {A : Type} (e : event) (r : Go.result A) : Run A := ([e], r).

Definition pure {A : Type} (r : Go.result A) : Run A := ([], r).

Definition and_then {A B : Type} (m : Run A) (k : A -> Run B) : Run B :=
  match m with
  | (l, Go.Ok a) => let '(l', r) := k a in ((l ++ l')%list, r)
  | (l, Go.Err e) => (l, Go.Err e)
  | (l, Go.Panic) => (l, Go.Panic)
  end.

Definition wrapping {A : Type} (prefix : string) (m : Run A) : Run A :=
  match m with
  | (l, Go.Err e) => (l, Go.Err (Go.wrapf prefix e))
  | r => r
  end.

Notation "'run*' x ':=' m 'in' k" := (and_then m (fun x => k))
  (at level 10, x name, m at level 100, k at level 200,
   format "'[v' 'run*'  x  ':='  m  'in' '/' k ']'").

(** The interface [sendDeps]: what each method returns in this run. *)
Record sendDeps : Type := mkSendDeps {
  FindRepoRoot : Go.result string;
  GetCommitPatch : string -> Go.result (list byte);
  GetStagedDiff : Go.result (list byte);
  GetDiff : Go.result (list byte);
  GenerateCode : Go.result (string * string * string);
  DeriveKey : string -> Go.result (list byte);
  Encrypt : list byte -> list byte -> Go.result (list byte);
  Send : string -> string -> Z -> Go.result client.SendResponse
}.

Section commands.
Context {E : base64.Encoding}.

(** [time.ParseDuration], [int(ttl.Seconds())] and the verb [%q]. *)
Variable ParseDuration : string -> Go.result time.Duration.
Variable Seconds : time.Duration -> Z.
Variable Quote : string -> string.

Definition runSendWithDeps (deps : sendDeps) (args : list string)
    (staged : bool) (ttlStr : string) : Run unit :=
  run* _ := call FindRepoRoot_called (FindRepoRoot deps) in
  run* _ := emit (Stderr ("Collecting changes..." +:+ nl)) in
  run* collected :=
    match args with
    | ref :: _ =>
        run* patch := call (GetCommitPatch_called ref) (GetCommitPatch deps ref) in
        done (patch, true)
    | [] =>
        if staged
        then run* patch := call GetStagedDiff_called (GetStagedDiff deps) in
             done (patch, false)
        else run* patch := call GetDiff_called (GetDiff deps) in
             done (patch, false)
    end in
  let '(patch, isCommit) := collected in
  run* _ := emit (Stderr ("   Found " +:+ pretty (length patch)
                            +:+ " bytes of changes" +:+ nl)) in
  run* generated :=
    wrapping "generating code" (call GenerateCode_called (GenerateCode deps)) in
  let '(code, codeID, passphrase) := generated in
  run* key :=
    wrapping "deriving key"
      (call (DeriveKey_called passphrase) (DeriveKey deps passphrase)) in
  run* encrypted :=
    wrapping "encrypting"
      (call (Encrypt_called patch key) (Encrypt deps patch key)) in
  run* ttl :=
    match ParseDuration ttlStr with
    | Go.Err e =>
        pure (Go.Err ("invalid TTL " +:+ Quote ttlStr +:+ ": " +:+ e))
    | r => pure r
    end in
  run* _ := emit (Stderr ("Encrypting and uploading..." +:+ nl)) in
  let encoded := base64.EncodeToString encrypted in
  run* resp :=
    wrapping "upload failed"
      (call (Send_called codeID encoded (Seconds ttl))
         (Send deps codeID encoded (Seconds ttl))) in
  run* _ := emit (Stderr (nl +:+ "Encrypted and uploaded." +:+ nl)) in
  run* _ := emit (Stderr ("Share this with the receiver:" +:+ nl +:+ nl)) in
  run* _ := emit (Stdout ("   git-share receive " +:+ code +:+ nl)) in
  run* _ :=
    if isCommit : bool
    then
      run* _ := emit (Stderr ("OR to receive as a commit instead of a patch:"
                                +:+ nl)) in
      emit (Stdout ("   git-share receive " +:+ code +:+ " --commit" +:+ nl))
    else done tt in
  run* _ := emit (Stderr (nl +:+ "Expires: " +:+ client.send_Expiry resp
                            +:+ " | One-time use only" +:+ nl)) in
  done tt.

Context {R : rand.Reader} {A : chacha20poly1305.AEAD} {H : hkdf.HKDF}.

(** [realSendDeps]: the packages themselves. The random source is in
    state [r] when [GenerateCode] is called; [Encrypt], called next, finds
    it in the state [GenerateCode] left. *)
Definition realSendDeps (repo : git.Repo) (serverURL : string)
    (network_Post : string -> client.SendRequest -> client.Exchange)
    (r : rand.state) : sendDeps :=
  mkSendDeps
    (git.FindRepoRoot repo) (git.GetCommitPatch repo)
    (git.GetStagedDiff repo) (git.GetDiff repo)
    (crypto.GenerateCode r).1
    crypto.DeriveKey
    (fun data key => (crypto.Encrypt data key (crypto.GenerateCode r).2).1)
    (fun codeID data ttl =>
       client.Send (client.New network_Post serverURL) codeID data ttl).

Definition RunSend (repo : git.Repo) (serverURL : string)
    (network_Post : string -> client.SendRequest -> client.Exchange)
    (r : rand.state) (args : list string) (SendStaged : bool)
    (SendTTL : string) : Run unit :=
  runSendWithDeps (realSendDeps repo serverURL network_Post r)
    args SendStaged SendTTL.

Definition runReceive (repo : git.Repo) (serverURL : string)
    (network_Post : string -> client.SendRequest -> client.Exchange)
    (network_Get : string -> client.GetExchange)
    (receiveCommit : bool) (args : list string) : Run unit :=
  let code := strings.Join args "-" in
  run* parsed := pure (crypto.ParseCode code) in
  let '(codeID, passphrase) := parsed in
  run* _ := call FindRepoRoot_called (git.FindRepoRoot repo) in
  run* _ := emit (Stderr ("Downloading patch..." +:+ nl)) in
  let c := client.New network_Post serverURL in
  run* encodedData :=
    call (Receive_called codeID) (client.Receive c network_Get codeID) in
  run* encrypted :=
    wrapping "decoding data" (pure (base64.DecodeString encodedData)) in
  run* _ := emit (Stderr ("Decrypting..." +:+ nl)) in
  run* key := wrapping "deriving key" (pure (crypto.DeriveKey passphrase)) in
  run* patch := pure (crypto.Decrypt encrypted key) in
  run* _ := emit (Stderr ("Applying patch..." +:+ nl)) in
  run* _ :=
    call (ApplyPatch_called patch receiveCommit)
      (git.ApplyPatch repo patch receiveCommit) in
  run* stats := call (PatchStats_called patch) (Go.Ok (git.PatchStats repo patch)) in
  run* _ := emit (Stderr (nl +:+ "Patch applied successfully." +:+ nl)) in
  run* _ :=
    if negb (String.eqb stats "")
    then emit (Stderr (nl +:+ stats +:+ nl))
    else done tt in
  done tt.

End commands.

(** *** parseByteSize

    [float64] and the library functions that the function goes through
    are parameters: [strings.TrimSpace], [strings.ToUpper],
    [strconv.ParseFloat(_, 64)], the product of two [float64], the
    [float64] of an integer constant, and the conversion [int64(_)]. *)

Definition is_numeric (c : ascii) : bool :=
  let n := nat_of_ascii c in
  ((nat_of_ascii "0" <=? n)%nat && (n <=? nat_of_ascii "9")%nat)
  || Ascii.eqb c ".".

(** The index [i] at which the loop over the numeric part stops. *)
Fixpoint numeric_end (s : string) : nat :=
  match s with
  | EmptyString => O
  | String c s' => if is_numeric c then S (numeric_end s') else O
  end.

Section parseByteSize.
Variable float64 : Type.
Variable TrimSpace : string -> string.
Variable ToUpper : string -> string.
Variable ParseFloat : string -> Go.result float64.
Variable float_mul : float64 -> float64 -> float64.
Variable float_of_Z : Z -> float64.
Variable int64_of_float : float64 -> Z.
Variable Quote : string -> string.

Definition parseByteSize (s : string) : Go.result Z :=
  let s := TrimSpace s in
  if String.eqb s "" then Go.Err "empty size string"
  else
    let i := numeric_end s in
    if Nat.eqb i 0 then Go.Err "no numeric value found"
    else
      let numStr := String.substring 0 i s in
      let unit := TrimSpace (ToUpper (String.substring i (String.length s - i) s)) in
      match ParseFloat numStr with
      | Go.Err e =>
          Go.Err ("invalid number " +:+ Quote numStr +:+ ": " +:+ e)
      | Go.Panic => Go.Panic
      | Go.Ok num =>
          let multiplier : option Z :=
            if String.eqb unit "B" || String.eqb unit "" then Some 1
            else if String.eqb unit "KB" || String.eqb unit "K" then Some 1024
            else if String.eqb unit "MB" || String.eqb unit "M"
                 then Some (1024 * 1024)
            else if String.eqb unit "GB" || String.eqb unit "G"
                 then Some (1024 * 1024 * 1024)
            else None in
          match multiplier with
          | None =>
              Go.Err ("unknown unit " +:+ Quote unit
                        +:+ " (use B, KB, MB, or GB)")
          | Some multiplier =>
              let result := int64_of_float (float_mul num (float_of_Z multiplier)) in
              if result <=? 0 then Go.Err "size must be greater than zero"
              else Go.Ok result
          end
      end.
End parseByteSize.

End cmd.

(** ** Instances of the parameters

    A finite tape of bytes for [rand.Reader], and a toy cipher and a toy
    key derivation with the shape of the two primitives: they run the code
    above on concrete inputs. *)

Module toy.

(** *** The reader: the bytes the source will deliver, in order; it fails
    when they run out. *)

Definition tape_Read (n : nat) : Go.M (list byte) (list byte) :=
  fun t =>
    if (length t <? n)%nat then (Go.Err "unexpected EOF", [])
    else (Go.Ok (take n t), drop n t).

Definition bitLen (n : Z) : Z := if n <=? 0 then 0 else Z.log2 n + 1.

Definition big_endian (bs : list byte) : Z :=
  fold_left (fun acc b => acc * 256 + Z.of_N (Byte.to_N b)) bs 0.

(** The loop of [rand.Int]: read [k] bytes, clear the bits above
    [bitLen], accept the candidate when it is below [max]. *)
Fixpoint tape_Int_loop (fuel : nat) (max : Z) (k : nat) (bits : Z)
    : Go.M (list byte) Z :=
  fun t =>
    match fuel with
    | O => (Go.Err "unexpected EOF", t)
    | S fuel' =>
        match tape_Read k t with
        | (Go.Ok bs, t') =>
            let n := big_endian bs mod 2 ^ bits in
            if n <? max then (Go.Ok n, t')
            else tape_Int_loop fuel' max k bits t'
        | (Go.Err e, t') => (Go.Err e, t')
        | (Go.Panic, t') => (Go.Panic, t')
        end
    end.

Definition tape_Int (max : Z) : Go.M (list byte) Z :=
  fun t =>
    if max <=? 0 then (Go.Panic, t)
    else
      let bits := bitLen (max - 1) in
      if bits =? 0 then (Go.Ok 0, t)
      else tape_Int_loop (S (length t)) max (Z.to_nat ((bits + 7) / 8)) bits t.

#[export] Instance tape : rand.Reader := {|
  rand.state := list byte;
  rand.Read := tape_Read;
  rand.Int := tape_Int
|}.

(** *** The cipher: the text is xor-ed with the key and the nonce,
    repeated as often as needed; the tag is sixteen bytes of the key, each
    xor-ed with a checksum of the nonce, the ciphertext and the data. *)

Definition xor_byte (a b : byte) : byte :=
  let '(a0, (a1, (a2, (a3, (a4, (a5, (a6, a7))))))) := Byte.to_bits a in
  let '(b0, (b1, (b2, (b3, (b4, (b5, (b6, b7))))))) := Byte.to_bits b in
  Byte.of_bits
    (xorb a0 b0, (xorb a1 b1, (xorb a2 b2, (xorb a3 b3,
      (xorb a4 b4, (xorb a5 b5, (xorb a6 b6, xorb a7 b7))))))).

Definition checksum (bs : list byte) : byte := fold_right xor_byte x00 bs.

(** [stretch n seed cur]: [n] bytes read off [cur] and then off [seed],
    over and over. *)
Fixpoint stretch (n : nat) (seed cur : list byte) : list byte :=
  match n with
  | O => []
  | S n' =>
      match cur with
      | b :: rest => b :: stretch n' seed rest
      | [] =>
          match seed with
          | b :: rest => b :: stretch n' seed rest
          | [] => x00 :: stretch n' seed []
          end
      end
  end.

Fixpoint xor_bytes (pad text : list byte) : list byte :=
  match pad, text with
  | p :: pad', t :: text' => xor_byte p t :: xor_bytes pad' text'
  | _, _ => []
  end.

Definition crypt (key nonce text : list byte) : list byte :=
  xor_bytes (stretch (length text) (key ++ nonce) []) text.

Definition tag (key nonce ct ad : list byte) : list byte :=
  map (xor_byte (checksum (nonce ++ ct ++ ad)))
    (stretch chacha20poly1305.Overhead key []).

Fixpoint bytes_eqb (a b : list byte) : bool :=
  match a, b with
  | [], [] => true
  | x :: a', y :: b' => Byte.eqb x y && bytes_eqb a' b'
  | _, _ => false
  end.

Definition toy_seal (key nonce plaintext ad : list byte) : list byte :=
  let ct := crypt key nonce plaintext in
  ct ++ tag key nonce ct ad.

Definition toy_open (key nonce ciphertext ad : list byte) : option (list byte) :=
  if (length ciphertext <? chacha20poly1305.Overhead)%nat then None
  else
    let n := (length ciphertext - chacha20poly1305.Overhead)%nat in
    let ct := take n ciphertext in
    if bytes_eqb (drop n ciphertext) (tag key nonce ct ad)
    then Some (crypt key nonce ct)
    else None.

#[export] Instance cipher : chacha20poly1305.AEAD := {|
  chacha20poly1305.seal := toy_seal;
  chacha20poly1305.open := toy_open
|}.

(** *** The key derivation: the bytes of the secret, the salt and the
    context, repeated as often as needed. *)

Definition toy_ReadFull (secret salt info : list byte) (n : nat)
    : Go.result (list byte) :=
  if (n <=? 255 * 32)%nat
  then Go.Ok (stretch n (secret ++ salt ++ info) [])
  else Go.Err "hkdf: entropy limit reached".

#[export] Instance kdf : hkdf.HKDF := {|
  hkdf.ReadFull := toy_ReadFull
|}.

(** *** Sample inputs *)

Definition sample_tape : list byte :=
  [x0a; x24; x3e; x7f; x19; x00; x3d; x81; x2c; x11; x05; x33;
   xff; x80; x07; x42; x99; xab; xcd; xef; x10; x32; x54; x76;
   x98; xba; xdc; xfe; x01; x23; x45; x67; x89; x0f; x1e; x2d;
   x3c; x4b; x5a; x69; x78; x87].

(** *** The encoding: the bytes themselves, read as a string. *)

#[export] Instance plain : base64.Encoding := {|
  base64.EncodeToString := Go.string_of_bytes;
  base64.DecodeString := fun s => Go.Ok (Go.bytes_of_string s)
|}.

(** Only the duration "1h" is understood. *)
Definition toy_ParseDuration (s : string) : Go.result time.Duration :=
  if String.eqb s "1h" then Go.Ok time.Hour
  else Go.Err ("time: invalid duration " +:+ s).

Definition toy_Seconds (d : time.Duration) : Z := Z.quot d time.Second.

Definition toy_Quote (s : string) : string := s.

(** Sizes without fraction: the number is read digit by digit. *)
Definition toy_ParseFloat (s : string) : Go.result Z :=
  (fix digits (acc : Z) (s : string) : Go.result Z :=
     match s with
     | EmptyString => Go.Ok acc
     | String c s' =>
         let n := nat_of_ascii c in
         if ((48 <=? n)%nat && (n <=? 57)%nat)%bool
         then digits (10 * acc + Z.of_nat (n - 48)) s'
         else Go.Err "strconv.ParseFloat: invalid syntax"
     end) 0 s.

End toy.

(** * Vocabulary of the specification *)

Module spec.
Import server chacha20poly1305.

(** ** The store *)

(** The number of stored entries whose TTL has not elapsed at [now], as
    the specification words the result of [count()]. *)
Definition live_count (now : time.Time) (s : Store) : Z :=
  Z.of_nat (size (filter (fun kv => expired now kv.2 = false) (blobs s))).

(** The three situations of a code ID for which a fetch finds nothing. *)
Inductive Missing (now : time.Time) (id : string) (s : Store) : Prop :=
| never_existed :
    blobs s !! id = None -> Missing now id s
| already_consumed (s0 : Store) (now0 : time.Time) (d : list byte) :
    GetAndDelete now0 id s0 = (Some d, s) -> Missing now id s
| ttl_expired (b : Blob) :
    blobs s !! id = Some b -> expired now b = true -> Missing now id s.

Definition not_found_response : Response ReceiveResponse :=
  writeJSON StatusNotFound
    (mkReceiveResponse false "" "not found or expired").

(** ** The code scheme *)

(** [free_of c s]: the character [c] does not occur in [s]. *)
Fixpoint free_of (c : ascii) (s : string) : bool :=
  match s with
  | EmptyString => true
  | String x s' => negb (Ascii.eqb c x) && free_of c s'
  end.

Definition dash : ascii := "-"%char.

(** ** The cipher *)

(** The inputs [Decrypt] turns down under a given key: shorter than a
    nonce, or not authenticated by the cipher. *)
Definition rejected {A : AEAD} (key ciphertext : list byte) : Prop :=
  (length ciphertext < NonceSizeX)%nat \/
  open key (take NonceSizeX ciphertext) (drop NonceSizeX ciphertext) [] = None.

Definition ErrTooShort : Go.error := "ciphertext too short".

Definition ErrDecryptionFailed : Go.error :=
  "decryption failed (wrong passphrase?): chacha20poly1305: message authentication failed".

(** ** The relay protocol *)

Definition ErrConflict : Go.error := "code ID already exists, try again".

(** A request that [Put] turns down: well-formed, with a code ID that the
    store already holds. *)
Definition duplicate (config : Config) (r : SendBody) (s : Store) : Prop :=
  exists req, Decode config r = Some req /\
    req_CodeID req <> "" /\ req_Data req <> "" /\
    is_Some (blobs s !! req_CodeID req).

(** The largest number of seconds that is a [time.Duration]. *)
Definition maxSeconds : Z := Go.maxInt64 / time.Second.

(** ** The handlers as transitions of the store *)

(** The TTL [handleSend] applies to a request for [seconds]. *)
Definition applied_ttl (config : Config) (seconds : Z) : time.Duration :=
  if 0 <? seconds then
    if Go.mul64 seconds time.Second <? MaxTTL config
    then Go.mul64 seconds time.Second else MaxTTL config
  else MaxTTL config.

(** One request served, or one sweep. *)
Inductive step (config : Config) : Store -> Store -> Prop :=
| step_send now_put now_resp r s :
    step config s (handleSend config now_put now_resp r s).2
| step_receive now id s :
    step config s (handleReceive now id s).2
| step_sweep now s :
    step config s (Cleanup now s).2.

(** The stores a relay started with [NewStore] can be in. *)
Definition reachable (config : Config) (s : Store) : Prop :=
  rtc (step config) NewStore s.

(** Every entry has a code ID and data that are not empty, and a TTL
    within the configured maximum. *)
Definition well_formed (config : Config) (s : Store) : Prop :=
  forall id b, blobs s !! id = Some b ->
    id <> "" /\
    (exists d, Data b = Some d /\ d <> []) /\
    TTL b <= MaxTTL config.

(** ** More on the code scheme *)

(** The number of occurrences of [c] in [s]. *)
Fixpoint count (c : ascii) (s : string) : nat :=
  match s with
  | EmptyString => O
  | String x s' => if Ascii.eqb c x then S (count c s') else count c s'
  end.

(** Every character of [s] is one of [alphabet]. *)
Fixpoint over (alphabet s : string) : Prop :=
  match s with
  | EmptyString => True
  | String x s' =>
      (exists i, String.get i alphabet = Some x) /\ over alphabet s'
  end.

(** [e] is the error of some [rand.Int(rand.Reader, max)]. *)
Definition draw_error {R : rand.Reader} (max : Z) (e : Go.error) : Prop :=
  exists r0, (rand.Int max r0).1 = Go.Err e.

(** ** Reading a run of a command *)

Definition stdout_of (l : list cmd.event) : list string :=
  omap (fun e => match e with cmd.Stdout text => Some text | _ => None end) l.

Definition sends_of (l : list cmd.event) : list (string * string * Z) :=
  omap (fun e => match e with
                 | cmd.Send_called codeID data ttl => Some (codeID, data, ttl)
                 | _ => None
                 end) l.

Definition receives_of (l : list cmd.event) : list string :=
  omap (fun e => match e with
                 | cmd.Receive_called codeID => Some codeID
                 | _ => None
                 end) l.

Definition applied_of (l : list cmd.event) : list (list byte * bool) :=
  omap (fun e => match e with
                 | cmd.ApplyPatch_called patch forceAm => Some (patch, forceAm)
                 | _ => None
                 end) l.

(** The patch [runSendWithDeps] collects for its arguments. *)
Definition collected (deps : cmd.sendDeps) (args : list string) (staged : bool)
    : Go.result (list byte) :=
  match args with
  | ref :: _ => cmd.GetCommitPatch deps ref
  | [] => if staged then cmd.GetStagedDiff deps else cmd.GetDiff deps
  end.

End spec.

(** ** Sample inputs *)

Module sample.

Definition key : list byte := repeat x00 chacha20poly1305.KeySize.

(** A ciphertext cut to one byte less than a nonce, and one cut to the
    nonce alone. *)
Definition short_input : list byte := repeat x00 23.
Definition nonce_only : list byte := repeat x00 chacha20poly1305.NonceSizeX.

Definition data : option (list byte) := Some (Go.bytes_of_string "data").

(** A store whose only entry was put at time 0 with a TTL of 1ms. *)
Definition stale_store : server.Store :=
  (server.Put 0 "expired" data time.Millisecond server.NewStore).2.

(** A store holding one entry put at time 0 with a TTL of one hour. *)
Definition fresh_store : server.Store :=
  (server.Put 0 "abc123" data time.Hour server.NewStore).2.

(** A request for one hour, put just before the clock reaches a second
    and answered just after. *)
Definition send_hour : server.SendBody :=
  server.mkSendBody 64
    (Some (server.mkSendRequest "id1234567" "ZGlmZiBjb250ZW50" 3600)).
Definition before_second : time.Time := 999999999.
Definition after_second : time.Time := 1000000000.

(** A request for one second more than a [Duration] can hold. *)
Definition send_overflow : server.SendBody :=
  server.mkSendBody 64
    (Some (server.mkSendRequest "id1234567" "ZGlmZiBjb250ZW50" 9223372037)).

(** A repository with uncommitted changes, where patches apply. *)
Definition repo : git.Repo :=
  git.mkRepo (Go.Ok "/repo")
    (fun _ => Go.Ok (Go.bytes_of_string "patch content"))
    (Go.Ok (Go.bytes_of_string "staged content"))
    (Go.Ok (Go.bytes_of_string "diff content"))
    (fun _ _ => Go.Ok tt)
    (fun _ => " 1 file changed").

(** The dependencies of the test suite of [runSendWithDeps]. *)
Definition mockSendDeps : cmd.sendDeps :=
  cmd.mkSendDeps (Go.Ok "/repo")
    (fun _ => Go.Ok (Go.bytes_of_string "patch content"))
    (Go.Ok (Go.bytes_of_string "diff content"))
    (Go.Ok (Go.bytes_of_string "diff content"))
    (Go.Ok ("abc-123", "id", "pass"))
    (fun _ => Go.Ok (Go.bytes_of_string "key"))
    (fun data _ => Go.Ok data)
    (fun _ _ _ =>
       Go.Ok (client.mkSendResponse false "2026-02-27T17:00:00Z" "")).

End sample.

(** * The instances meet the contracts *)

Module toy_spec.
Import spec.
Import toy.

Lemma xorb_cancel (a b : bool) : xorb a (xorb a b) = b.
Proof. destruct a, b; reflexivity. Qed.

Lemma xor_byte_cancel (k a : byte) : xor_byte k (xor_byte k a) = a.
Proof.
  unfold xor_byte.
  destruct (Byte.to_bits k)
    as (k0 & k1 & k2 & k3 & k4 & k5 & k6 & k7) eqn:Hk.
  destruct (Byte.to_bits a)
    as (a0 & a1 & a2 & a3 & a4 & a5 & a6 & a7) eqn:Ha.
  rewrite Byte.to_bits_of_bits, !xorb_cancel, <- Ha.
  apply Byte.of_bits_to_bits.
Qed.

Lemma stretch_length n seed cur : length (stretch n seed cur) = n.
Proof.
  revert cur. induction n as [|n IH]; intros cur; [reflexivity|].
  cbn [stretch]. destruct cur as [|b rest]; [destruct seed|];
    cbn [length]; rewrite IH; reflexivity.
Qed.

Lemma xor_bytes_length pad text :
  length pad = length text -> length (xor_bytes pad text) = length text.
Proof.
  revert text. induction pad as [|p pad IH]; intros [|t text] Hlen;
    try discriminate Hlen; [reflexivity|].
  cbn [xor_bytes length]. rewrite IH; [reflexivity|].
  injection Hlen as Hlen. exact Hlen.
Qed.

Lemma xor_bytes_cancel pad text :
  length pad = length text -> xor_bytes pad (xor_bytes pad text) = text.
Proof.
  revert text. induction pad as [|p pad IH]; intros [|t text] Hlen;
    try discriminate Hlen; [reflexivity|].
  cbn [xor_bytes]. rewrite xor_byte_cancel, IH; [reflexivity|].
  injection Hlen as Hlen. exact Hlen.
Qed.

Lemma crypt_length key nonce text :
  length (crypt key nonce text) = length text.
Proof. unfold crypt. apply xor_bytes_length, stretch_length. Qed.

Lemma crypt_crypt key nonce text :
  crypt key nonce (crypt key nonce text) = text.
Proof.
  unfold crypt at 1. rewrite crypt_length. unfold crypt.
  apply xor_bytes_cancel, stretch_length.
Qed.

Lemma bytes_eqb_refl a : bytes_eqb a a = true.
Proof.
  induction a as [|x a IH]; [reflexivity|].
  cbn [bytes_eqb]. rewrite IH, (Byte.byte_dec_lb (eq_refl x)). reflexivity.
Qed.

Lemma tape_laws : rand.ReaderLaws tape.
Proof.
  constructor. intros n t b t'. cbn [rand.Read tape]. unfold tape_Read.
  destruct (Nat.ltb_spec (length t) n) as [?|Hge]; [discriminate|].
  intros [= <- _]. rewrite length_take. lia.
Qed.

Lemma cipher_laws : chacha20poly1305.AEADLaws cipher.
Proof.
  constructor.
  - intros key nonce plaintext ad.
    cbn [chacha20poly1305.open chacha20poly1305.seal cipher].
    unfold toy_open, toy_seal.
    set (ct := crypt key nonce plaintext).
    assert (Hlen : length (ct ++ tag key nonce ct ad)
                   = (length ct + chacha20poly1305.Overhead)%nat).
    { rewrite length_app. unfold tag.
      rewrite length_map, stretch_length. reflexivity. }
    rewrite Hlen.
    destruct (Nat.ltb_spec (length ct + chacha20poly1305.Overhead)
                chacha20poly1305.Overhead) as [?|_]; [lia|].
    replace (length ct + chacha20poly1305.Overhead
             - chacha20poly1305.Overhead)%nat with (length ct) by lia.
    rewrite take_app_length, drop_app_length, bytes_eqb_refl.
    subst ct. rewrite crypt_crypt. reflexivity.
  - intros key nonce ciphertext ad Hshort.
    cbn [chacha20poly1305.open cipher]. unfold toy_open.
    apply Nat.ltb_lt in Hshort. rewrite Hshort. reflexivity.
Qed.

Lemma kdf_laws : hkdf.HKDFLaws kdf.
Proof.
  constructor. intros secret salt info n Hn.
  cbn [hkdf.ReadFull kdf]. unfold toy_ReadFull.
  apply Nat.leb_le in Hn. rewrite Hn.
  eexists. split; [reflexivity|]. apply stretch_length.
Qed.

End toy_spec.

(** * Properties of the blob store *)

Module store_spec.
Import spec.
Import server.

Lemma expired_spec now b :
  expired now b = true <-> TTL b < time.Since now (CreatedAt b).
Proof. unfold expired. apply Z.ltb_lt. Qed.

Lemma expired_false_spec now b :
  expired now b = false <-> time.Since now (CreatedAt b) <= TTL b.
Proof. unfold expired. rewrite Z.ltb_ge. reflexivity. Qed.

Lemma Put_absent now id d ttl s :
  blobs s !! id = None ->
  Put now id d ttl s = (true, mkStore (<[id := mkBlob d now ttl]> (blobs s))).
Proof. intros Habs. unfold Put. rewrite Habs. reflexivity. Qed.

Lemma Put_present now id d ttl s b :
  blobs s !! id = Some b -> Put now id d ttl s = (false, s).
Proof. intros Hb. unfold Put. rewrite Hb. reflexivity. Qed.

Lemma GetAndDelete_absent now id s :
  blobs s !! id = None -> GetAndDelete now id s = (None, s).
Proof. intros Habs. unfold GetAndDelete. rewrite Habs. reflexivity. Qed.

Lemma GetAndDelete_live now id s b :
  blobs s !! id = Some b -> expired now b = false ->
  GetAndDelete now id s = (Data b, mkStore (delete id (blobs s))).
Proof. intros Hb Hlive. unfold GetAndDelete. rewrite Hb, Hlive. reflexivity. Qed.

Lemma GetAndDelete_stale now id s b :
  blobs s !! id = Some b -> expired now b = true ->
  GetAndDelete now id s = (None, mkStore (delete id (blobs s))).
Proof. intros Hb Hexp. unfold GetAndDelete. rewrite Hb, Hexp. reflexivity. Qed.

(** Whatever a fetch returns, the code ID is free afterwards. *)
Lemma GetAndDelete_frees now id s :
  blobs (GetAndDelete now id s).2 !! id = None.
Proof.
  unfold GetAndDelete.
  destruct (blobs s !! id) as [b|] eqn:Hb; [|exact Hb].
  destruct (expired now b); simpl; apply lookup_delete_eq.
Qed.

(** A fetch does not touch the other code IDs. *)
Lemma GetAndDelete_other now id id' s :
  id <> id' -> blobs (GetAndDelete now id s).2 !! id' = blobs s !! id'.
Proof.
  intros Hne. unfold GetAndDelete.
  destruct (blobs s !! id) as [b|]; [|reflexivity].
  destruct (expired now b); simpl; apply lookup_delete_ne; exact Hne.
Qed.

(** ** Claim C2 *)

(** C2. If [id] is absent and [ttl > 0], [Put] returns [true]; a fetch
    that follows immediately (no more than [ttl] has elapsed on the clock)
    returns the data that was put; a second fetch at any later reading of
    the clock, with no [Put] in between, returns nothing. *)
Theorem Put_GetAndDelete_once (s : Store) (id : string) (d : option (list byte))
    (ttl : time.Duration) (now1 now2 now3 : time.Time) :
  blobs s !! id = None ->
  0 < ttl ->
  time.Since now2 now1 <= ttl ->
  let put := Put now1 id d ttl s in
  let first := GetAndDelete now2 id put.2 in
  let second := GetAndDelete now3 id first.2 in
  put.1 = true /\ first.1 = d /\ second.1 = None.
Proof.
  intros Habs Hpos Hsoon put first second.
  subst put first second.
  rewrite (Put_absent _ _ _ _ _ Habs). cbn [fst snd].
  split; [reflexivity|].
  rewrite (GetAndDelete_live now2 id _ (mkBlob d now1 ttl)).
  - cbn [fst snd blobs Data]. split; [reflexivity|].
    rewrite GetAndDelete_absent; [reflexivity|].
    cbn [blobs]. apply lookup_delete_eq.
  - cbn [blobs]. apply lookup_insert_eq.
  - apply expired_false_spec. exact Hsoon.
Qed.

Lemma Put_GetAndDelete_once_witness :
  (Put 0 "abc123" sample.data time.Hour NewStore).1 = true /\
  (GetAndDelete (5 * time.Second) "abc123" sample.fresh_store).1 = sample.data /\
  (GetAndDelete (7 * time.Second) "abc123"
     (GetAndDelete (5 * time.Second) "abc123" sample.fresh_store).2).1 = None.
Proof.
  apply (Put_GetAndDelete_once NewStore "abc123" sample.data time.Hour
           0 (5 * time.Second) (7 * time.Second)).
  - reflexivity.
  - reflexivity.
  - vm_compute. discriminate.
Defined.

(** ** Claim C4 *)

(** C4. If [id] is present with blob [b], [Put] returns [false] and the
    store is the one it was given; a later fetch within the TTL of [b]
    returns the data of [b]. *)
Theorem Put_duplicate_rejected (s : Store) (id : string) (b : Blob)
    (d2 : option (list byte)) (ttl : time.Duration) (now : time.Time) :
  blobs s !! id = Some b ->
  Put now id d2 ttl s = (false, s) /\
  forall now', expired now' b = false ->
    (GetAndDelete now' id (Put now id d2 ttl s).2).1 = Data b.
Proof.
  intros Hb. rewrite (Put_present _ _ _ _ _ _ Hb).
  split; [reflexivity|].
  intros now' Hlive. cbn [snd].
  rewrite (GetAndDelete_live _ _ _ _ Hb Hlive). reflexivity.
Qed.

Lemma Put_duplicate_rejected_witness :
  Put (3 * time.Second) "abc123" (Some (Go.bytes_of_string "data2")) time.Hour
    sample.fresh_store = (false, sample.fresh_store) /\
  forall now', expired now' (mkBlob sample.data 0 time.Hour) = false ->
    (GetAndDelete now' "abc123"
       (Put (3 * time.Second) "abc123" (Some (Go.bytes_of_string "data2"))
          time.Hour sample.fresh_store).2).1 = sample.data.
Proof.
  apply (Put_duplicate_rejected sample.fresh_store "abc123"
           (mkBlob sample.data 0 time.Hour)).
  vm_compute. reflexivity.
Defined.

(** ** Claim C5 *)

(** C5. If the age of a stored entry, as [time.Since] measures it, exceeds
    its TTL, [GetAndDelete] returns nothing and deletes the entry, in any
    state of the store (whether or not [Cleanup] ran before). *)
Theorem GetAndDelete_expired (s : Store) (id : string) (b : Blob)
    (now : time.Time) :
  blobs s !! id = Some b ->
  TTL b < time.Since now (CreatedAt b) ->
  GetAndDelete now id s = (None, mkStore (delete id (blobs s))) /\
  blobs (GetAndDelete now id s).2 !! id = None.
Proof.
  intros Hb Hage. split.
  - apply GetAndDelete_stale with b; [exact Hb|].
    apply expired_spec. exact Hage.
  - apply GetAndDelete_frees.
Qed.

Lemma GetAndDelete_expired_witness :
  GetAndDelete (10 * time.Millisecond) "expired" sample.stale_store
    = (None, mkStore (delete "expired" (blobs sample.stale_store))) /\
  blobs (GetAndDelete (10 * time.Millisecond) "expired" sample.stale_store).2
    !! "expired" = None.
Proof.
  apply (GetAndDelete_expired sample.stale_store "expired"
           (mkBlob sample.data 0 time.Millisecond)).
  - vm_compute. reflexivity.
  - reflexivity.
Defined.

(** ** The sweep *)

Lemma Cleanup_fold now (M m : gmap string Blob) :
  let r := map_fold (Cleanup_step now) (0, M) m in
  r.1 = Z.of_nat (size (filter (fun kv => expired now kv.2 = true) m)) /\
  forall i, r.2 !! i =
    match m !! i with
    | Some x => if expired now x then None else M !! i
    | None => M !! i
    end.
Proof.
  cbv zeta.
  apply (map_fold_weak_ind
    (fun r m =>
       r.1 = Z.of_nat (size (filter (fun kv => expired now kv.2 = true) m)) /\
       forall i, r.2 !! i =
         match m !! i with
         | Some x => if expired now x then None else M !! i
         | None => M !! i
         end)).
  - split; [reflexivity|]. intros i. rewrite lookup_empty. reflexivity.
  - intros i x m' r Hfresh [Hn Hlk]. unfold Cleanup_step.
    destruct (expired now x) eqn:Hx; cbn [fst snd].
    + split.
      * rewrite map_filter_insert_True by exact Hx.
        rewrite map_size_insert_None.
        -- rewrite Hn. lia.
        -- apply map_lookup_filter_None. left. exact Hfresh.
      * intros j. destruct (decide (i = j)) as [->|Hne].
        -- rewrite lookup_delete_eq, lookup_insert_eq, Hx. reflexivity.
        -- rewrite lookup_delete_ne, lookup_insert_ne by exact Hne. apply Hlk.
    + split.
      * rewrite map_filter_insert_False by (cbn; congruence).
        rewrite delete_id by exact Hfresh. exact Hn.
      * intros j. destruct (decide (i = j)) as [->|Hne].
        -- rewrite lookup_insert_eq, Hx, Hlk, Hfresh. reflexivity.
        -- rewrite lookup_insert_ne by exact Hne. apply Hlk.
Qed.

(** [Cleanup] keeps exactly the entries that are not expired. *)
Lemma Cleanup_store now s :
  (Cleanup now s).2 =
  mkStore (filter (fun kv => expired now kv.2 = false) (blobs s)).
Proof.
  unfold Cleanup. cbn [snd]. f_equal. apply map_eq. intros i.
  destruct (Cleanup_fold now (blobs s) (blobs s)) as [_ Hlk].
  rewrite Hlk. clear Hlk.
  destruct (blobs s !! i) as [x|] eqn:Hi.
  - destruct (expired now x) eqn:Hx; symmetry.
    + apply map_lookup_filter_None. right. intros y Hy. cbn.
      rewrite Hi in Hy. injection Hy as <-. congruence.
    + apply map_lookup_filter_Some. split; [exact Hi | exact Hx].
  - symmetry. apply map_lookup_filter_None. left. exact Hi.
Qed.

Lemma Cleanup_removed now s :
  (Cleanup now s).1 =
  Z.of_nat (size (filter (fun kv => expired now kv.2 = true) (blobs s))).
Proof.
  unfold Cleanup. cbn [fst].
  destruct (Cleanup_fold now (blobs s) (blobs s)) as [Hn _]. exact Hn.
Qed.

Lemma live_count_le_Count now s : live_count now s <= Count s.
Proof.
  unfold live_count, Count. apply inj_le.
  apply map_subseteq_size, map_filter_subseteq.
Qed.

(** ** Claim C10 *)

(** C10, as amended. [Count] is the number of entries the map holds,
    whether or not their TTL has elapsed, and this is the integer of the
    [blobs] field of the health response; it is never below the number of
    live entries, and is that number in the store a sweep leaves. *)
Theorem Count_stored_entries (s : Store) :
  Count s = Z.of_nat (size (blobs s)) /\
  handleHealth s = writeJSON StatusOK (mkHealthResponse true (Count s)) /\
  forall now,
    live_count now s <= Count s /\
    Count (Cleanup now s).2 = live_count now s.
Proof.
  split; [reflexivity|]. split; [reflexivity|].
  intros now. split.
  - apply live_count_le_Count.
  - rewrite Cleanup_store. reflexivity.
Qed.

(** C10, as stated, fails: the store whose only entry was put at time 0
    with a TTL of one millisecond still counts one entry at 10ms, and the
    health endpoint reports it, when no entry is live. *)
Lemma Count_counts_expired :
  Count sample.stale_store = 1 /\
  health_blobs (body (handleHealth sample.stale_store)) = 1 /\
  live_count (10 * time.Millisecond) sample.stale_store = 0 /\
  Count sample.stale_store <> live_count (10 * time.Millisecond) sample.stale_store.
Proof. vm_compute. repeat split; discriminate. Qed.

(** ** Claim C7 *)

(** C7. For a code ID that never existed, was already consumed, or whose
    TTL has expired, [handleReceive] writes one and the same response:
    status 404 with the error "not found or expired". The router hands
    the handler a non-empty [id]. *)
Theorem handleReceive_missing_uniform (now : time.Time) (id : string)
    (s : Store) :
  id <> "" ->
  Missing now id s ->
  (handleReceive now id s).1 = not_found_response.
Proof.
  intros Hid Hmiss. unfold handleReceive.
  destruct (String.eqb_spec id "") as [?|_]; [contradiction|].
  destruct Hmiss as [Habs | s0 now0 d Hget | b Hb Hexp].
  - rewrite (GetAndDelete_absent _ _ _ Habs). reflexivity.
  - assert (Habs : blobs s !! id = None).
    { replace s with (GetAndDelete now0 id s0).2 by (rewrite Hget; reflexivity).
      apply GetAndDelete_frees. }
    rewrite (GetAndDelete_absent _ _ _ Habs). reflexivity.
  - rewrite (GetAndDelete_stale _ _ _ _ Hb Hexp). reflexivity.
Qed.

Lemma handleReceive_missing_uniform_witness :
  (handleReceive (9 * time.Second) "abc123"
     (GetAndDelete (5 * time.Second) "abc123" sample.fresh_store).2).1
  = not_found_response.
Proof.
  apply handleReceive_missing_uniform.
  - discriminate.
  - apply (already_consumed _ _ _ sample.fresh_store (5 * time.Second)
             (Go.bytes_of_string "data")).
    vm_compute. reflexivity.
Defined.

(** The three situations in one run: a code ID that was never stored, one
    that was fetched before, and one whose TTL has run out get the same
    response. *)
Example receive_three_ways :
  (handleReceive time.Hour "nothere" sample.fresh_store).1 = not_found_response /\
  (handleReceive (9 * time.Second) "abc123"
     (handleReceive (5 * time.Second) "abc123" sample.fresh_store).2).1
    = not_found_response /\
  (handleReceive (10 * time.Millisecond) "expired" sample.stale_store).1
    = not_found_response.
Proof. vm_compute. repeat split. Qed.

End store_spec.

(** * Properties of the code scheme *)

Module code_spec.
Import spec.

Lemma free_of_get c s n x :
  free_of c s = true -> String.get n s = Some x -> Ascii.eqb c x = false.
Proof.
  revert n. induction s as [|y s IH]; intros n Hfree Hget; [discriminate|].
  cbn in Hfree. apply andb_prop in Hfree as [Hy Hs].
  destruct n as [|n]; cbn in Hget.
  - injection Hget as <-. apply negb_true_iff. exact Hy.
  - eapply IH; eassumption.
Qed.

Lemma free_of_app c a b :
  free_of c (a +:+ b) = free_of c a && free_of c b.
Proof.
  induction a as [|x a IH]; simpl; [reflexivity|].
  rewrite IH. apply andb_assoc.
Qed.

(** Cutting at a one-character separator. *)
Lemma cut_at_first c a b :
  free_of c a = true ->
  strings.cut (String c "") (a +:+ String c b) = Some (a, b).
Proof.
  induction a as [|x a IH]; intros Hfree.
  - simpl. rewrite Ascii.eqb_refl. reflexivity.
  - simpl in Hfree. apply andb_prop in Hfree as [Hx Ha].
    apply negb_true_iff in Hx.
    simpl. rewrite Hx. simpl in IH. rewrite (IH Ha). reflexivity.
Qed.

Lemma cut_absent c a :
  free_of c a = true -> strings.cut (String c "") a = None.
Proof.
  induction a as [|x a IH]; intros Hfree; [reflexivity|].
  simpl in Hfree. apply andb_prop in Hfree as [Hx Ha].
  apply negb_true_iff in Hx.
  simpl. rewrite Hx. simpl in IH. rewrite (IH Ha). reflexivity.
Qed.

Lemma Join_cons w w' ws sep :
  strings.Join (w :: w' :: ws) sep = w +:+ sep +:+ strings.Join (w' :: ws) sep.
Proof. reflexivity. Qed.

Lemma length_app_string a b :
  String.length (a +:+ b) = (String.length a + String.length b)%nat.
Proof. induction a as [|x a IH]; simpl; [reflexivity|]. rewrite IH. reflexivity. Qed.

Lemma Join_length_ge c w ws :
  (length ws <= String.length (strings.Join (w :: ws) (String c "")))%nat.
Proof.
  revert w. induction ws as [|w' ws IH]; intros w; [cbn; lia|].
  rewrite Join_cons, !length_app_string. specialize (IH w'). cbn in *. lia.
Qed.

(** Splitting what [Join] glued gives the pieces back, when none of them
    contains the separator. *)
Lemma split_loop_Join c w ws k :
  Forall (fun x => free_of c x = true) (w :: ws) ->
  (length ws <= k)%nat ->
  strings.split_loop k (String c "") (strings.Join (w :: ws) (String c ""))
  = w :: ws.
Proof.
  revert w k. induction ws as [|w' ws IH]; intros w k Hall Hk.
  - apply Forall_cons in Hall as [Hw _].
    destruct k; cbn; [reflexivity|].
    cbn in *. rewrite (cut_absent _ _ Hw). reflexivity.
  - apply Forall_cons in Hall as [Hw Hall].
    destruct k as [|k]; [cbn in Hk; lia|].
    rewrite Join_cons. cbn [strings.split_loop].
    change (String c "" +:+ strings.Join (w' :: ws) (String c ""))
      with (String c (strings.Join (w' :: ws) (String c ""))).
    rewrite (cut_at_first _ _ _ Hw).
    rewrite IH; [reflexivity | exact Hall | cbn in Hk; lia].
Qed.

Lemma Count_loop_Join c w ws fuel :
  Forall (fun x => free_of c x = true) (w :: ws) ->
  (length ws <= fuel)%nat ->
  strings.Count_loop fuel (String c "") (strings.Join (w :: ws) (String c ""))
  = Z.of_nat (length ws).
Proof.
  revert w fuel. induction ws as [|w' ws IH]; intros w fuel Hall Hk.
  - apply Forall_cons in Hall as [Hw _].
    destruct fuel; cbn; [reflexivity|].
    cbn in *. rewrite (cut_absent _ _ Hw). reflexivity.
  - apply Forall_cons in Hall as [Hw Hall].
    destruct fuel as [|fuel]; [cbn in Hk; lia|].
    rewrite Join_cons. cbn [strings.Count_loop].
    change (String c "" +:+ strings.Join (w' :: ws) (String c ""))
      with (String c (strings.Join (w' :: ws) (String c ""))).
    rewrite (cut_at_first _ _ _ Hw).
    rewrite IH; [cbn [length]; lia | exact Hall | cbn in Hk; lia].
Qed.

Lemma Split_Join c w ws :
  Forall (fun x => free_of c x = true) (w :: ws) ->
  strings.Split (strings.Join (w :: ws) (String c "")) (String c "") = w :: ws.
Proof.
  intros Hall. unfold strings.Split, strings.genSplit.
  cbn [Z.eqb String.eqb]. change (-1 <? 0) with true. cbv iota.
  unfold strings.Count.
  rewrite Count_loop_Join by (exact Hall || apply Join_length_ge).
  pose proof (Join_length_ge c w ws) as Hlen.
  destruct (Z.ltb_spec
    (Z.of_nat (String.length (strings.Join (w :: ws) (String c ""))) + 1)
    (Z.of_nat (length ws) + 1)) as [Hlt|_]; [lia|].
  replace (Z.to_nat (Z.of_nat (length ws) + 1 - 1)) with (length ws) by lia.
  apply split_loop_Join; [exact Hall | lia].
Qed.

Lemma SplitN_2 c a b :
  free_of c a = true ->
  strings.SplitN (a +:+ String c b) (String c "") 2 = [a; b].
Proof.
  intros Hfree. unfold strings.SplitN, strings.genSplit.
  cbn [Z.eqb String.eqb]. change (2 <? 0) with false. cbv iota.
  rewrite length_app_string. cbn [String.length].
  destruct (Z.ltb_spec
    (Z.of_nat (String.length a + S (String.length b)) + 1) 2) as [Hlt|_]; [lia|].
  change (Z.to_nat (2 - 1)) with 1%nat. cbn [strings.split_loop].
  rewrite (cut_at_first _ _ _ Hfree). reflexivity.
Qed.

(** ** Running the monad backwards from a success *)

Lemma bind_Ok {S A B : Type} (m : Go.M S A) (k : A -> Go.M S B) s b s' :
  Go.bind m k s = (Go.Ok b, s') ->
  exists a s1, m s = (Go.Ok a, s1) /\ k a s1 = (Go.Ok b, s').
Proof.
  unfold Go.bind. destruct (m s) as [[a|e|] s1]; intros Hk;
    [eauto | discriminate | discriminate].
Qed.

Lemma wrap_err_Ok {S A : Type} prefix (m : Go.M S A) s a s' :
  Go.wrap_err prefix m s = (Go.Ok a, s') -> m s = (Go.Ok a, s').
Proof.
  unfold Go.wrap_err. destruct (m s) as [[a'|e|] s1]; intros Hm;
    [exact Hm | discriminate | discriminate].
Qed.

Lemma lift_Ok {S A : Type} (r : Go.result A) (s : S) a s' :
  Go.lift r s = (Go.Ok a, s') -> r = Go.Ok a /\ s' = s.
Proof. unfold Go.lift. intros [= -> ->]. split; reflexivity. Qed.

Lemma ret_Ok {S A : Type} (x : A) (s : S) a s' :
  Go.ret x s = (Go.Ok a, s') -> a = x /\ s' = s.
Proof. unfold Go.ret. intros [= -> ->]. split; reflexivity. Qed.

(** ** What [generateCodeID] and [Pick] can return *)

Lemma base62Chars_free : free_of dash crypto.base62Chars = true.
Proof. reflexivity. Qed.

Lemma Words_free : forallb (free_of dash) wordlist.Words = true.
Proof. vm_compute. reflexivity. Qed.

Lemma string_index_base62 i c :
  Go.string_index crypto.base62Chars i = Go.Ok c -> Ascii.eqb dash c = false.
Proof.
  unfold Go.string_index. destruct (i <? 0); [discriminate|].
  destruct (String.get (Z.to_nat i) crypto.base62Chars) as [x|] eqn:Hget;
    [|discriminate].
  intros [= <-]. exact (free_of_get _ _ _ _ base62Chars_free Hget).
Qed.

Lemma slice_index_Words i w :
  Go.slice_index wordlist.Words i = Go.Ok w -> free_of dash w = true.
Proof.
  unfold Go.slice_index. destruct (i <? 0); [discriminate|].
  destruct (wordlist.Words !! Z.to_nat i) as [x|] eqn:Hget; [|discriminate].
  intros [= <-]. apply list_elem_of_lookup_2, list_elem_of_In in Hget.
  exact (proj1 (forallb_forall _ _) Words_free _ Hget).
Qed.

Section generate.
Context {R : rand.Reader}.

Lemma generateCodeID_loop_Ok n r s r' :
  crypto.generateCodeID_loop n r = (Go.Ok s, r') ->
  String.length s = n /\ free_of dash s = true.
Proof.
  revert r s r'. induction n as [|n IH]; intros r s r' Hrun.
  - apply ret_Ok in Hrun as [-> _]. split; reflexivity.
  - cbn [crypto.generateCodeID_loop] in Hrun.
    apply bind_Ok in Hrun as (idx & r1 & _ & Hrun).
    apply bind_Ok in Hrun as (c & r2 & Hc & Hrun).
    apply bind_Ok in Hrun as (rest & r3 & Hrest & Hrun).
    apply ret_Ok in Hrun as [-> _].
    apply lift_Ok in Hc as [Hc _]. apply string_index_base62 in Hc.
    destruct (IH _ _ _ Hrest) as [Hlen Hfree].
    split; [cbn; congruence|].
    cbn [free_of]. rewrite Hc, Hfree. reflexivity.
Qed.

Lemma Pick_loop_Ok n r ws r' :
  wordlist.Pick_loop n r = (Go.Ok ws, r') ->
  length ws = n /\ Forall (fun w => free_of dash w = true) ws.
Proof.
  revert r ws r'. induction n as [|n IH]; intros r ws r' Hrun.
  - apply ret_Ok in Hrun as [-> _]. split; [reflexivity | constructor].
  - cbn [wordlist.Pick_loop] in Hrun.
    apply bind_Ok in Hrun as (idx & r1 & _ & Hrun).
    apply bind_Ok in Hrun as (w & r2 & Hw & Hrun).
    apply bind_Ok in Hrun as (rest & r3 & Hrest & Hrun).
    apply ret_Ok in Hrun as [-> _].
    apply lift_Ok in Hw as [Hw _]. apply slice_index_Words in Hw.
    destruct (IH _ _ _ Hrest) as [Hlen Hall].
    split; [cbn; congruence | constructor; assumption].
Qed.

(** A successful [GenerateCode] returns ten characters other than the
    separator, four words without the separator joined by it, and the two
    glued by the separator. *)
Lemma GenerateCode_Ok r code codeID passphrase r' :
  crypto.GenerateCode r = (Go.Ok (code, codeID, passphrase), r') ->
  exists w1 w2 w3 w4,
    String.length codeID = crypto.CodeIDLength /\
    free_of dash codeID = true /\
    Forall (fun w => free_of dash w = true) [w1; w2; w3; w4] /\
    passphrase = strings.Join [w1; w2; w3; w4] crypto.PassphraseSep /\
    code = codeID +:+ crypto.CodeSep +:+ passphrase.
Proof.
  unfold crypto.GenerateCode. intros Hrun.
  apply bind_Ok in Hrun as (id & r1 & Hid & Hrun).
  apply bind_Ok in Hrun as (pass & r2 & Hpass & Hrun).
  apply ret_Ok in Hrun as [[= -> -> ->] _].
  apply wrap_err_Ok, generateCodeID_loop_Ok in Hid as [Hlen Hfree].
  apply wrap_err_Ok in Hpass. unfold wordlist.Pick in Hpass.
  change (crypto.PassphraseWords <? 0) with false in Hpass. cbv iota in Hpass.
  apply bind_Ok in Hpass as (ws & r3 & Hws & Hpass).
  apply ret_Ok in Hpass as [-> _].
  apply Pick_loop_Ok in Hws as [Hn Hall].
  change (Z.to_nat crypto.PassphraseWords) with 4%nat in Hn.
  destruct ws as [|w1 [|w2 [|w3 [|w4 [|w5 ws]]]]]; try discriminate Hn.
  exists w1, w2, w3, w4. repeat split; assumption.
Qed.

End generate.

(** ** Claim C3 *)

(** C3. Whenever [GenerateCode] returns [(code, codeID, passphrase)]
    without error, [ParseCode code] succeeds with [(codeID, passphrase)]. *)
Theorem ParseCode_GenerateCode (R : rand.Reader) (r r' : rand.state)
    (code codeID passphrase : string) :
  crypto.GenerateCode r = (Go.Ok (code, codeID, passphrase), r') ->
  crypto.ParseCode code = Go.Ok (codeID, passphrase).
Proof.
  intros Hgen.
  apply GenerateCode_Ok in Hgen
    as (w1 & w2 & w3 & w4 & Hlen & Hfree & Hall & -> & ->).
  unfold crypto.ParseCode.
  change (crypto.CodeSep +:+ ?p) with (String dash p).
  change crypto.CodeSep with (String dash "").
  change crypto.PassphraseSep with (String dash "").
  rewrite (SplitN_2 _ _ _ Hfree).
  destruct codeID as [|c0 codeID]; [discriminate Hlen|].
  cbn [String.eqb orb].
  destruct (String.eqb_spec (strings.Join [w1; w2; w3; w4] (String dash "")) "")
    as [Hempty|_].
  { apply (f_equal String.length) in Hempty.
    pose proof (Join_length_ge dash w1 [w2; w3; w4]) as Hge.
    rewrite Hempty in Hge. cbn in Hge. lia. }
  rewrite (Split_Join _ _ _ Hall). reflexivity.
Qed.

Lemma ParseCode_GenerateCode_witness :
  crypto.GenerateCode (R:=toy.tape) toy.sample_tape
    = (Go.Ok ("AaP0z1iH5p-hole-ease-atom-clay", "AaP0z1iH5p",
              "hole-ease-atom-clay"), drop 16 toy.sample_tape) /\
  crypto.ParseCode "AaP0z1iH5p-hole-ease-atom-clay"
    = Go.Ok ("AaP0z1iH5p", "hole-ease-atom-clay").
Proof.
  split.
  - vm_compute. reflexivity.
  - apply (ParseCode_GenerateCode toy.tape toy.sample_tape
             (drop 16 toy.sample_tape)).
    vm_compute. reflexivity.
Defined.

(** The malformed codes of the test suite are turned down. *)
Example ParseCode_invalid :
  Forall (fun code => exists e, crypto.ParseCode code = Go.Err e)
    [""; "nodelimiter"; "-"; "id-"; "-passphrase"; "id-oneword"].
Proof. repeat constructor; eexists; vm_compute; reflexivity. Qed.

End code_spec.

(** * Properties of the cipher *)

Module cipher_spec.
Import spec.
Import chacha20poly1305.

Lemma NewX_ok key : length key = KeySize -> NewX key = Go.Ok key.
Proof. intros Hlen. unfold NewX. rewrite Hlen. reflexivity. Qed.

Section cipher.
Context {R : rand.Reader} {A : AEAD} {H : hkdf.HKDF}.

Lemma Decrypt_too_short key ciphertext :
  length key = KeySize ->
  (length ciphertext < NonceSizeX)%nat ->
  crypto.Decrypt ciphertext key = Go.Err ErrTooShort.
Proof.
  intros Hkey Hlen. unfold crypto.Decrypt. rewrite (NewX_ok _ Hkey).
  unfold NonceSize. apply Nat.ltb_lt in Hlen. rewrite Hlen. reflexivity.
Qed.

Lemma Decrypt_unauthenticated key ciphertext :
  length key = KeySize ->
  (NonceSizeX <= length ciphertext)%nat ->
  open key (take NonceSizeX ciphertext) (drop NonceSizeX ciphertext) [] = None ->
  crypto.Decrypt ciphertext key = Go.Err ErrDecryptionFailed.
Proof.
  intros Hkey Hlen Hopen. unfold crypto.Decrypt. rewrite (NewX_ok _ Hkey).
  unfold NonceSize. apply Nat.ltb_ge in Hlen. rewrite Hlen.
  unfold Open. rewrite Hopen. reflexivity.
Qed.

Lemma Decrypt_authenticated key ciphertext plaintext :
  length key = KeySize ->
  (NonceSizeX <= length ciphertext)%nat ->
  open key (take NonceSizeX ciphertext) (drop NonceSizeX ciphertext) []
    = Some plaintext ->
  crypto.Decrypt ciphertext key = Go.Ok plaintext.
Proof.
  intros Hkey Hlen Hopen. unfold crypto.Decrypt. rewrite (NewX_ok _ Hkey).
  unfold NonceSize. apply Nat.ltb_ge in Hlen. rewrite Hlen.
  unfold Open. rewrite Hopen. reflexivity.
Qed.

Context {RL : rand.ReaderLaws R} {AL : AEADLaws A} {HL : hkdf.HKDFLaws H}.

Lemma DeriveKey_ok passphrase :
  exists key, crypto.DeriveKey passphrase = Go.Ok key /\ length key = KeySize.
Proof.
  unfold crypto.DeriveKey.
  destruct (hkdf.ReadFull_ok (Go.bytes_of_string passphrase)
              (Go.bytes_of_string crypto.hkdfSalt)
              (Go.bytes_of_string crypto.hkdfInfo) KeySize)
    as (key & -> & Hlen); [unfold KeySize; lia|].
  exists key. split; [reflexivity | exact Hlen].
Qed.

Lemma Decrypt_sealed key nonce plaintext :
  length key = KeySize ->
  length nonce = NonceSizeX ->
  crypto.Decrypt (Seal key nonce nonce plaintext []) key = Go.Ok plaintext.
Proof.
  intros Hkey Hnonce. unfold Seal.
  apply Decrypt_authenticated; [exact Hkey | rewrite length_app; lia |].
  rewrite take_app_length' by (symmetry; exact Hnonce).
  rewrite drop_app_length' by (symmetry; exact Hnonce).
  apply open_seal.
Qed.

(** [Encrypt] fails only when the nonce cannot be drawn, and otherwise
    returns the nonce followed by the sealed plaintext. *)
Lemma Encrypt_run plaintext key r :
  length key = KeySize ->
  match rand.Read NonceSizeX r with
  | (Go.Ok nonce, r') =>
      crypto.Encrypt plaintext key r
      = (Go.Ok (Seal key nonce nonce plaintext []), r')
  | (Go.Err e, r') =>
      crypto.Encrypt plaintext key r
      = (Go.Err (Go.wrapf "generating nonce" e), r')
  | (Go.Panic, r') => crypto.Encrypt plaintext key r = (Go.Panic, r')
  end.
Proof.
  intros Hkey. unfold crypto.Encrypt. rewrite (NewX_ok _ Hkey).
  unfold Go.bind, Go.wrap_err, NonceSize.
  destruct (rand.Read NonceSizeX r) as [[nonce|e|] r']; reflexivity.
Qed.

End cipher.

(** ** Claim C1 *)

(** C1. For every plaintext [P] and passphrase [S], [DeriveKey S] returns
    a key, and for every state of the random source: if [Encrypt P key]
    returns a ciphertext (whatever nonce it drew), [Decrypt] of it under
    [DeriveKey S] returns [P]; [Encrypt] returns a ciphertext whenever
    [rand.Read] delivers the nonce. *)
Theorem Decrypt_Encrypt_DeriveKey (R : rand.Reader) (A : AEAD) (H : hkdf.HKDF)
    (RL : rand.ReaderLaws R) (AL : AEADLaws A) (HL : hkdf.HKDFLaws H)
    (P : list byte) (S : string) :
  exists key,
    crypto.DeriveKey S = Go.Ok key /\
    forall r : rand.state,
      (forall ct r', crypto.Encrypt P key r = (Go.Ok ct, r') ->
         crypto.Decrypt ct key = Go.Ok P) /\
      (forall nonce r', rand.Read NonceSizeX r = (Go.Ok nonce, r') ->
         exists ct, crypto.Encrypt P key r = (Go.Ok ct, r')).
Proof.
  destruct (DeriveKey_ok S) as (key & Hderive & Hkey).
  exists key. split; [exact Hderive|].
  intros r. pose proof (Encrypt_run P key r Hkey) as Hrun.
  destruct (rand.Read NonceSizeX r) as [[nonce|e|] r1] eqn:Hread.
  - split.
    + intros ct r' Henc. rewrite Hrun in Henc. injection Henc as <- <-.
      apply Decrypt_sealed; [exact Hkey|].
      exact (rand.Read_length _ _ _ _ Hread).
    + intros nonce' r' [= <- <-]. eexists. exact Hrun.
  - split; [|discriminate].
    intros ct r' Henc. rewrite Hrun in Henc. discriminate Henc.
  - split; [|discriminate].
    intros ct r' Henc. rewrite Hrun in Henc. discriminate Henc.
Qed.

Lemma Decrypt_Encrypt_DeriveKey_witness :
  exists key,
    crypto.DeriveKey (H:=toy.kdf) "alpha-bravo-charlie-delta" = Go.Ok key /\
    forall r : list byte,
      (forall ct r',
         crypto.Encrypt (R:=toy.tape) (A:=toy.cipher) (Go.bytes_of_string "diff content") key r = (Go.Ok ct, r') ->
         crypto.Decrypt (A:=toy.cipher) ct key = Go.Ok (Go.bytes_of_string "diff content")) /\
      (forall nonce r', rand.Read (Reader:=toy.tape) NonceSizeX r = (Go.Ok nonce, r') ->
         exists ct,
           crypto.Encrypt (R:=toy.tape) (A:=toy.cipher) (Go.bytes_of_string "diff content") key r
             = (Go.Ok ct, r')).
Proof.
  exact (Decrypt_Encrypt_DeriveKey toy.tape toy.cipher toy.kdf
           toy_spec.tape_laws toy_spec.cipher_laws toy_spec.kdf_laws
           (Go.bytes_of_string "diff content") "alpha-bravo-charlie-delta").
Defined.

(** One run on the sample tape: the ciphertext opens to the plaintext under
    the key of the same passphrase, and fails under the key of another. *)
Example encrypt_then_decrypt :
  match crypto.DeriveKey (H:=toy.kdf) "alpha-bravo-charlie-delta",
        crypto.DeriveKey (H:=toy.kdf) "echo-foxtrot-golf-hotel" with
  | Go.Ok key, Go.Ok other =>
      match crypto.Encrypt (R:=toy.tape) (A:=toy.cipher)
              (Go.bytes_of_string "diff content") key toy.sample_tape with
      | (Go.Ok ct, _) =>
          crypto.Decrypt (A:=toy.cipher) ct key
            = Go.Ok (Go.bytes_of_string "diff content") /\
          crypto.Decrypt (A:=toy.cipher) ct other = Go.Err ErrDecryptionFailed
      | _ => False
      end
  | _, _ => False
  end.
Proof. vm_compute. split; reflexivity. Qed.

(** ** Claim C8 *)

(** C8, as amended. Under a key of the cipher's size, [Decrypt] fails on
    every rejected input, and the error depends on one thing only: whether
    the input is shorter than a nonce ("ciphertext too short") or not
    (one and the same "decryption failed" error, whatever made the
    authentication fail). *)
Theorem Decrypt_rejected (A : AEAD) (key ciphertext : list byte) :
  length key = KeySize ->
  rejected key ciphertext ->
  crypto.Decrypt ciphertext key =
  Go.Err (if (length ciphertext <? NonceSizeX)%nat
          then ErrTooShort else ErrDecryptionFailed).
Proof.
  intros Hkey Hrej.
  destruct (Nat.ltb_spec (length ciphertext) NonceSizeX) as [Hlt|Hge].
  - apply Decrypt_too_short; assumption.
  - destruct Hrej as [Hlt|Hopen]; [lia|].
    apply Decrypt_unauthenticated; assumption.
Qed.

(** A nonce with nothing behind it is rejected by every cipher that turns
    down inputs shorter than its tag. *)
Lemma nonce_only_rejected (A : AEAD) (AL : AEADLaws A) key :
  rejected key (repeat x00 NonceSizeX).
Proof.
  right. apply open_short.
  rewrite length_drop, repeat_length. unfold NonceSizeX, Overhead. lia.
Qed.

Lemma Decrypt_rejected_witness :
  length sample.key = KeySize /\
  rejected (A:=toy.cipher) sample.key sample.nonce_only /\
  crypto.Decrypt (A:=toy.cipher) sample.nonce_only sample.key = Go.Err ErrDecryptionFailed.
Proof.
  pose proof (nonce_only_rejected toy.cipher toy_spec.cipher_laws sample.key)
    as Hrej.
  split; [reflexivity|]. split; [exact Hrej|].
  exact (Decrypt_rejected toy.cipher sample.key sample.nonce_only
           eq_refl Hrej).
Defined.

(** C8, as stated, fails: under one key, a ciphertext cut to 23 bytes and
    one cut to its 24-byte nonce are both rejected, the first as "too
    short" and the second as a failed authentication, so the error tells
    the two causes apart. The same happens with every cipher that rejects
    inputs shorter than its tag. *)
Lemma Decrypt_errors_differ :
  rejected (A:=toy.cipher) sample.key sample.short_input /\
  rejected (A:=toy.cipher) sample.key sample.nonce_only /\
  crypto.Decrypt (A:=toy.cipher) sample.short_input sample.key = Go.Err ErrTooShort /\
  crypto.Decrypt (A:=toy.cipher) sample.nonce_only sample.key = Go.Err ErrDecryptionFailed /\
  crypto.Decrypt (A:=toy.cipher) sample.short_input sample.key
    <> crypto.Decrypt (A:=toy.cipher) sample.nonce_only sample.key.
Proof.
  split; [left; vm_compute; lia|].
  split; [right; reflexivity|].
  split; [reflexivity|]. split; [reflexivity|].
  vm_compute. discriminate.
Qed.

End cipher_spec.

(** * Properties of the relay protocol *)

Module relay_spec.
Import spec.
Import server.

Lemma mul64_Second t :
  0 < t <= maxSeconds -> Go.mul64 t time.Second = t * time.Second.
Proof.
  unfold maxSeconds, Go.maxInt64, Go.mul64, Go.wrap64, time.Second.
  change (2 ^ 63) with 9223372036854775808.
  change (2 ^ 64) with 18446744073709551616.
  change ((9223372036854775808 - 1) / 1000000000) with 9223372036.
  intros Ht. rewrite Z.mod_small by lia. lia.
Qed.

(** The TTL [handleSend] settles on. *)
Lemma handleSend_run config now_put now_resp r s req :
  Decode config r = Some req ->
  req_CodeID req <> "" -> req_Data req <> "" ->
  let ttl :=
    if 0 <? req_TTL req then
      if Go.mul64 (req_TTL req) time.Second <? MaxTTL config
      then Go.mul64 (req_TTL req) time.Second else MaxTTL config
    else MaxTTL config in
  handleSend config now_put now_resp r s =
  match blobs s !! req_CodeID req with
  | Some _ =>
      (writeJSON StatusConflict (mkSendResponse false "" ErrConflict), s)
  | None =>
      (writeJSON StatusCreated
         (mkSendResponse true (time.Format_RFC3339 (time.Add now_resp ttl)) ""),
       mkStore (<[req_CodeID req :=
                    mkBlob (Some (Go.bytes_of_string (req_Data req))) now_put ttl]>
                  (blobs s)))
  end.
Proof.
  intros Hdec Hid Hdata. cbv zeta. unfold handleSend. rewrite Hdec.
  destruct (String.eqb_spec (req_CodeID req) "") as [?|_]; [contradiction|].
  destruct (String.eqb_spec (req_Data req) "") as [?|_]; [contradiction|].
  cbn [orb]. unfold Put.
  destruct (blobs s !! req_CodeID req); reflexivity.
Qed.

Lemma handleSend_status config now_put now_resp r s :
  let st := status (handleSend config now_put now_resp r s).1 in
  st = StatusBadRequest \/ st = StatusConflict \/ st = StatusCreated.
Proof.
  cbv zeta. unfold handleSend.
  destruct (Decode config r) as [req|]; [|left; reflexivity].
  destruct (String.eqb (req_CodeID req) "" || String.eqb (req_Data req) "");
    [left; reflexivity|].
  unfold Put. destruct (blobs s !! req_CodeID req);
    [right; left | right; right]; reflexivity.
Qed.

(** ** Claim C6 *)

(** C6, as amended. When [handleSend] answers 201, the blob is stored with
    the clock reading of [Put] as its insertion time and with a TTL that
    is the smaller of the requested seconds and [MaxTTL] when the request
    asks for a positive number of seconds that fits a [Duration], and
    [MaxTTL] when it asks for none; the response carries, in RFC3339, the
    later clock reading of the handler plus that TTL, an instant that is
    not before the insertion time plus the TTL. *)
Theorem handleSend_created (config : Config) (now_put now_resp : time.Time)
    (r : SendBody) (s : Store) :
  status (handleSend config now_put now_resp r s).1 = StatusCreated ->
  exists req ttl,
    Decode config r = Some req /\
    (0 < req_TTL req <= maxSeconds ->
       ttl = Z.min (req_TTL req * time.Second) (MaxTTL config)) /\
    (req_TTL req <= 0 -> ttl = MaxTTL config) /\
    blobs (handleSend config now_put now_resp r s).2 !! req_CodeID req
      = Some (mkBlob (Some (Go.bytes_of_string (req_Data req))) now_put ttl) /\
    (handleSend config now_put now_resp r s).1
      = writeJSON StatusCreated
          (mkSendResponse true (time.Format_RFC3339 (time.Add now_resp ttl)) "") /\
    (now_put <= now_resp -> time.Add now_put ttl <= time.Add now_resp ttl).
Proof.
  intros Hst.
  destruct (Decode config r) as [req|] eqn:Hdec;
    [|unfold handleSend in Hst; rewrite Hdec in Hst; discriminate Hst].
  destruct (String.eqb_spec (req_CodeID req) "") as [Hid|Hid].
  { unfold handleSend in Hst. rewrite Hdec, Hid in Hst. discriminate Hst. }
  destruct (String.eqb_spec (req_Data req) "") as [Hdata|Hdata].
  { unfold handleSend in Hst. rewrite Hdec, Hdata, orb_true_r in Hst.
    discriminate Hst. }
  pose proof (handleSend_run config now_put now_resp r s req Hdec Hid Hdata)
    as Hrun. cbv zeta in Hrun. rewrite Hrun in *. clear Hrun.
  destruct (blobs s !! req_CodeID req) as [b|]; [discriminate Hst|].
  exists req,
    (if 0 <? req_TTL req then
       if Go.mul64 (req_TTL req) time.Second <? MaxTTL config
       then Go.mul64 (req_TTL req) time.Second else MaxTTL config
     else MaxTTL config).
  split; [reflexivity|]. cbn [fst snd blobs].
  split; [|split; [|split; [|split]]].
  - intros Hreq. rewrite (mul64_Second _ Hreq).
    destruct (Z.ltb_spec 0 (req_TTL req)) as [_|?]; [|lia].
    destruct (Z.ltb_spec (req_TTL req * time.Second) (MaxTTL config)); lia.
  - intros Hreq. destruct (Z.ltb_spec 0 (req_TTL req)) as [?|_]; [lia|].
    reflexivity.
  - apply lookup_insert_eq.
  - reflexivity.
  - unfold time.Add. lia.
Qed.

Lemma handleSend_created_witness :
  status (handleSend DefaultConfig 0 5 sample.send_hour NewStore).1
    = StatusCreated /\
  exists req ttl,
    Decode DefaultConfig sample.send_hour = Some req /\
    (0 < req_TTL req <= maxSeconds ->
       ttl = Z.min (req_TTL req * time.Second) (MaxTTL DefaultConfig)) /\
    (req_TTL req <= 0 -> ttl = MaxTTL DefaultConfig) /\
    blobs (handleSend DefaultConfig 0 5 sample.send_hour NewStore).2
      !! req_CodeID req
      = Some (mkBlob (Some (Go.bytes_of_string (req_Data req))) 0 ttl) /\
    (handleSend DefaultConfig 0 5 sample.send_hour NewStore).1
      = writeJSON StatusCreated
          (mkSendResponse true (time.Format_RFC3339 (time.Add 5 ttl)) "") /\
    (0 <= 5 -> time.Add 0 ttl <= time.Add 5 ttl).
Proof.
  split; [reflexivity|].
  apply (handleSend_created DefaultConfig 0 5 sample.send_hour NewStore).
  reflexivity.
Defined.

(** C6, as stated, fails on the expiry: the request is stored at
    0.999999999s with a TTL of one hour, so the entry expires at
    01:00:00 (and 999999999ns); the handler reads the clock again at
    1.000000000s and the response says 01:00:01. *)
Lemma expiry_read_after_put :
  status (handleSend DefaultConfig sample.before_second sample.after_second
            sample.send_hour NewStore).1 = StatusCreated /\
  blobs (handleSend DefaultConfig sample.before_second sample.after_second
           sample.send_hour NewStore).2 !! "id1234567"
    = Some (mkBlob (Some (Go.bytes_of_string "ZGlmZiBjb250ZW50"))
              sample.before_second time.Hour) /\
  send_Expiry (body (handleSend DefaultConfig sample.before_second
                       sample.after_second sample.send_hour NewStore).1)
    = "1970-01-01T01:00:01Z" /\
  time.Format_RFC3339 (time.Add sample.before_second time.Hour)
    = "1970-01-01T01:00:00Z" /\
  send_Expiry (body (handleSend DefaultConfig sample.before_second
                       sample.after_second sample.send_hour NewStore).1)
    <> time.Format_RFC3339 (time.Add sample.before_second time.Hour).
Proof. vm_compute. repeat split; discriminate. Qed.

(** Outside the amended claim: a request for more seconds than a
    [Duration] holds wraps around in [time.Duration(req.TTL) * time.Second],
    and the blob is stored with a negative TTL. *)
Example ttl_seconds_overflow :
  status (handleSend DefaultConfig 0 5 sample.send_overflow NewStore).1
    = StatusCreated /\
  TTL <$> blobs (handleSend DefaultConfig 0 5 sample.send_overflow NewStore).2
            !! "id1234567" = Some (-9223372036709551616).
Proof. vm_compute. repeat split. Qed.

(** ** Claim C9 *)

(** C9. On the wire, [handleSend] answers 409 with the error "code ID
    already exists, try again" exactly when the request is a duplicate;
    any other request gets another status and another error. On the
    sender's side, [Client.Send] returns the error "server error: code ID
    already exists, try again" exactly when the answer it decoded carries
    that rejection, whatever else went wrong otherwise. *)
Theorem conflict_surfaced_distinctly :
  (forall config now_put now_resp r s,
     let resp := (handleSend config now_put now_resp r s).1 in
     (duplicate config r s ->
        resp = writeJSON StatusConflict (mkSendResponse false "" ErrConflict)) /\
     (~ duplicate config r s ->
        status resp <> StatusConflict /\ send_Error (body resp) <> ErrConflict)) /\
  (forall (c : client.Client) codeID data ttlSeconds,
     client.Send c codeID data ttlSeconds
       = Go.Err ("server error: " +:+ ErrConflict) <->
     exists code sendResp,
       client.httpClient_Post c (client.baseURL c +:+ "/api/send")
         (client.mkSendRequest codeID data ttlSeconds)
         = client.Answer code sendResp /\
       client.send_OK sendResp = false /\
       client.send_Error sendResp = ErrConflict).
Proof.
  split.
  - intros config now_put now_resp r s resp. subst resp. split.
    + intros (req & Hdec & Hid & Hdata & [b Hb]).
      pose proof (handleSend_run config now_put now_resp r s req Hdec Hid Hdata)
        as Hrun. cbv zeta in Hrun. rewrite Hrun, Hb. reflexivity.
    + intros Hnot. unfold handleSend.
      destruct (Decode config r) as [req|] eqn:Hdec;
        [|split; discriminate].
      destruct (String.eqb_spec (req_CodeID req) "") as [Hid|Hid];
        [split; discriminate|].
      destruct (String.eqb_spec (req_Data req) "") as [Hdata|Hdata];
        [split; discriminate|].
      cbn [orb]. unfold Put.
      destruct (blobs s !! req_CodeID req) as [b|] eqn:Hb;
        [|split; discriminate].
      exfalso. apply Hnot. exists req. repeat split; try assumption.
      exists b. exact Hb.
  - intros c codeID data ttlSeconds. unfold client.Send. split.
    + destruct (client.httpClient_Post c _ _) as [e|e|e|code sendResp];
        try (simpl; discriminate).
      destruct (client.send_OK sendResp) eqn:Hok; [discriminate|].
      simpl. intros [= Herr]. exists code, sendResp. auto.
    + intros (code & sendResp & -> & -> & ->). reflexivity.
Qed.

(** A sender whose [httpClient] reaches a relay: [Send] returns the
    conflict error exactly when the relay holds the code ID already. *)
Corollary Send_conflict_over_relay config now_put now_resp s len url
    codeID data ttlSeconds :
  len <= MaxSize config -> codeID <> "" -> data <> "" ->
  client.Send
    (client.mkClient url (wire.relay_Post config now_put now_resp s len))
    codeID data ttlSeconds = Go.Err ("server error: " +:+ ErrConflict)
  <-> is_Some (blobs s !! codeID).
Proof.
  intros Hlen Hid Hdata.
  set (r := mkSendBody len
              (Some (wire.request_to_server
                       (client.mkSendRequest codeID data ttlSeconds)))).
  assert (Hdec : Decode config r
                 = Some (mkSendRequest codeID data ttlSeconds)).
  { unfold Decode, r. cbn [body_len body_json].
    destruct (Z.ltb_spec (MaxSize config) len); [lia | reflexivity]. }
  pose proof (handleSend_run config now_put now_resp r s _ Hdec Hid Hdata)
    as Hrun. cbv zeta in Hrun. cbn [req_CodeID req_TTL req_Data] in Hrun.
  unfold client.Send, wire.relay_Post.
  cbn [client.httpClient_Post client.baseURL]. fold r. rewrite Hrun.
  destruct (blobs s !! codeID) as [b|]; cbn.
  - split; [eauto | reflexivity].
  - split; [discriminate | intros [? [=]]].
Qed.

End relay_spec.

(** * More on the blob store *)

Module store_more.
Import spec.
Import server.
Import store_spec.

Lemma Sub_mono t t' u : t <= t' -> time.Sub t u <= time.Sub t' u.
Proof.
  intros Hle. unfold time.Sub, Go.minInt64, Go.maxInt64.
  change (- 2 ^ 63) with (-9223372036854775808).
  change (2 ^ 63 - 1) with 9223372036854775807.
  destruct (Z.ltb_spec (t - u) (-9223372036854775808));
    destruct (Z.ltb_spec (t' - u) (-9223372036854775808));
    destruct (Z.ltb_spec 9223372036854775807 (t - u));
    destruct (Z.ltb_spec 9223372036854775807 (t' - u)); lia.
Qed.

(** What is expired stays expired as the clock advances. *)
Lemma expired_mono now now' b :
  now <= now' -> expired now b = true -> expired now' b = true.
Proof.
  intros Hle Hexp. apply expired_spec in Hexp. apply expired_spec.
  pose proof (Sub_mono now now' (CreatedAt b) Hle). unfold time.Since in *. lia.
Qed.

Lemma Count_insert_fresh id b (m : gmap string Blob) :
  m !! id = None -> Count (mkStore (<[id := b]> m)) = Count (mkStore m) + 1.
Proof.
  intros Hfresh. unfold Count. cbn [blobs].
  rewrite map_size_insert_None by exact Hfresh. lia.
Qed.

Lemma Count_delete id (m : gmap string Blob) :
  Count (mkStore (delete id m))
  = Count (mkStore m) - match m !! id with Some _ => 1 | None => 0 end.
Proof.
  unfold Count. cbn [blobs]. rewrite map_size_delete.
  destruct (m !! id) as [b|] eqn:Hb; cbn; [|lia].
  assert (size m <> 0%nat); [|lia].
  intros Hz. apply map_size_empty_iff in Hz. rewrite Hz in Hb.
  rewrite lookup_empty in Hb. discriminate.
Qed.

(** X1. [Put] succeeds exactly when the code ID is absent; it then adds
    the one entry, stamped with the clock reading, and the count grows by
    one; when it fails the store is untouched; in both cases every other
    code ID keeps what it had. *)
Theorem Put_adds_one (now : time.Time) (id : string) (d : option (list byte))
    (ttl : time.Duration) (s : Store) :
  ((Put now id d ttl s).1 = true <-> blobs s !! id = None) /\
  ((Put now id d ttl s).1 = true ->
     blobs (Put now id d ttl s).2 !! id = Some (mkBlob d now ttl) /\
     Count (Put now id d ttl s).2 = Count s + 1) /\
  ((Put now id d ttl s).1 = false -> (Put now id d ttl s).2 = s) /\
  (forall id', id' <> id ->
     blobs (Put now id d ttl s).2 !! id' = blobs s !! id').
Proof.
  unfold Put. destruct (blobs s !! id) as [b|] eqn:Hb; cbn [fst snd blobs].
  - repeat split; try discriminate; try reflexivity.
  - repeat split; try discriminate; try reflexivity.
    + apply lookup_insert_eq.
    + destruct s as [m]. cbn [blobs] in *. apply Count_insert_fresh, Hb.
    + intros id' Hne. apply lookup_insert_ne. congruence.
Qed.

(** X2. [GetAndDelete] returns data only for an entry that is present and
    not expired, and then the data of that entry; whatever it returns, the
    code ID is absent afterwards, the count has dropped by one exactly when
    the code ID was present, and every other code ID keeps what it had. *)
Theorem GetAndDelete_removes_one (now : time.Time) (id : string) (s : Store) :
  (forall d, (GetAndDelete now id s).1 = Some d ->
     exists b, blobs s !! id = Some b /\ expired now b = false /\
               Data b = Some d) /\
  blobs (GetAndDelete now id s).2 !! id = None /\
  Count (GetAndDelete now id s).2
    = Count s - match blobs s !! id with Some _ => 1 | None => 0 end /\
  (forall id', id' <> id ->
     blobs (GetAndDelete now id s).2 !! id' = blobs s !! id').
Proof.
  split; [|split; [apply GetAndDelete_frees|split]].
  - intros d. unfold GetAndDelete.
    destruct (blobs s !! id) as [b|]; [|discriminate].
    destruct (expired now b) eqn:Hexp; [discriminate|].
    cbn [fst]. intros Hd. exists b. auto.
  - unfold GetAndDelete. destruct s as [m]. cbn [blobs].
    destruct (m !! id) as [b|] eqn:Hb.
    + destruct (expired now b); cbn [snd]; rewrite Count_delete, Hb;
        reflexivity.
    + cbn [snd]. lia.
  - intros id' Hne. apply GetAndDelete_other. congruence.
Qed.

Lemma live_plus_stale now (m : gmap string Blob) :
  (size (filter (fun kv => expired now kv.2 = false) m)
   + size (filter (fun kv => expired now kv.2 = true) m))%nat = size m.
Proof.
  rewrite <- (map_filter_union_complement
                (fun kv : string * Blob => expired now kv.2 = false) m) at 3.
  rewrite map_size_disj_union by apply map_disjoint_filter_complement.
  f_equal. f_equal. apply map_filter_ext. intros i x _. cbn.
  destruct (expired now x); split; congruence.
Qed.

(** X3. [Cleanup] keeps exactly the entries that are not expired, each
    with the blob it had, and returns how many it removed: the count before
    less the count after. *)
Theorem Cleanup_removes_expired (now : time.Time) (s : Store) :
  (forall id b,
     blobs (Cleanup now s).2 !! id = Some b <->
     blobs s !! id = Some b /\ expired now b = false) /\
  (Cleanup now s).1 = Count s - Count (Cleanup now s).2 /\
  0 <= (Cleanup now s).1.
Proof.
  rewrite Cleanup_store, Cleanup_removed. cbn [blobs]. split; [|split].
  - intros id b. apply map_lookup_filter_Some.
  - unfold Count. cbn [blobs]. pose proof (live_plus_stale now (blobs s)). lia.
  - lia.
Qed.

(** X4. [Put] looks at presence only: while an expired entry is still in
    the map its code ID is refused; once [Cleanup] or a fetch has removed
    the entry, the same [Put] succeeds. *)
Theorem expired_entry_blocks_Put (now : time.Time) (id : string) (b : Blob)
    (d : option (list byte)) (ttl : time.Duration) (s : Store) :
  blobs s !! id = Some b ->
  expired now b = true ->
  Put now id d ttl s = (false, s) /\
  (Put now id d ttl (Cleanup now s).2).1 = true /\
  (Put now id d ttl (GetAndDelete now id s).2).1 = true.
Proof.
  intros Hb Hexp. split; [exact (Put_present _ _ _ _ _ _ Hb)|]. split.
  - rewrite Put_absent; [reflexivity|].
    rewrite Cleanup_store. cbn [blobs].
    apply map_lookup_filter_None. right. intros x Hx. cbn.
    rewrite Hb in Hx. injection Hx as <-. congruence.
  - rewrite Put_absent; [reflexivity | apply GetAndDelete_frees].
Qed.

Lemma expired_entry_blocks_Put_witness :
  Put (10 * time.Millisecond) "expired" sample.data time.Hour sample.stale_store
    = (false, sample.stale_store) /\
  (Put (10 * time.Millisecond) "expired" sample.data time.Hour
     (Cleanup (10 * time.Millisecond) sample.stale_store).2).1 = true /\
  (Put (10 * time.Millisecond) "expired" sample.data time.Hour
     (GetAndDelete (10 * time.Millisecond) "expired" sample.stale_store).2).1
    = true.
Proof.
  apply (expired_entry_blocks_Put (10 * time.Millisecond) "expired"
           (mkBlob sample.data 0 time.Millisecond)).
  - vm_compute. reflexivity.
  - reflexivity.
Defined.

(** X5. The sweep is garbage collection only: a fetch at the time of the
    sweep or later returns the same data whether or not the sweep ran. *)
Theorem Cleanup_transparent (now now' : time.Time) (id : string) (s : Store) :
  now <= now' ->
  (GetAndDelete now' id (Cleanup now s).2).1 = (GetAndDelete now' id s).1.
Proof.
  intros Hle. rewrite Cleanup_store. unfold GetAndDelete. cbn [blobs].
  destruct (blobs s !! id) as [b|] eqn:Hb.
  - destruct (expired now b) eqn:Hexp.
    + rewrite (proj2 (map_lookup_filter_None _ _ _)).
      * rewrite (expired_mono _ _ _ Hle Hexp). reflexivity.
      * right. intros x Hx. cbn. rewrite Hb in Hx. injection Hx as <-.
        congruence.
    + rewrite (proj2 (map_lookup_filter_Some _ _ _ _) (conj Hb Hexp)).
      destruct (expired now' b); reflexivity.
  - rewrite (proj2 (map_lookup_filter_None _ _ _)); [reflexivity|].
    left. exact Hb.
Qed.

Lemma Cleanup_transparent_witness :
  (GetAndDelete (7 * time.Second) "abc123"
     (Cleanup (5 * time.Second) sample.fresh_store).2).1
  = (GetAndDelete (7 * time.Second) "abc123" sample.fresh_store).1.
Proof.
  apply (Cleanup_transparent (5 * time.Second) (7 * time.Second)).
  vm_compute. discriminate.
Defined.

Lemma Sub_exact t d :
  Go.minInt64 <= d <= Go.maxInt64 -> time.Sub (t + d) t = d.
Proof.
  unfold time.Sub, Go.minInt64, Go.maxInt64. intros Hd.
  replace (t + d - t) with d by lia.
  destruct (Z.ltb_spec d (- 2 ^ 63)); [lia|].
  destruct (Z.ltb_spec (2 ^ 63 - 1) d); [lia | reflexivity].
Qed.

(** X22. The test for expiry is strict: an entry is still delivered when
    its age equals its TTL, and is refused one nanosecond later; an entry
    with a negative TTL is refused at its very insertion time. *)
Theorem expiry_boundary (s : Store) (id : string) (b : Blob) :
  blobs s !! id = Some b ->
  (0 <= TTL b < Go.maxInt64 ->
     (GetAndDelete (CreatedAt b + TTL b) id s).1 = Data b /\
     (GetAndDelete (CreatedAt b + (TTL b + 1)) id s).1 = None) /\
  (TTL b < 0 -> (GetAndDelete (CreatedAt b) id s).1 = None).
Proof.
  intros Hb. unfold GetAndDelete. rewrite Hb. unfold expired, time.Since.
  split.
  - intros Httl.
    rewrite !Sub_exact by (unfold Go.minInt64, Go.maxInt64 in *; lia).
    rewrite Z.ltb_irrefl.
    destruct (Z.ltb_spec (TTL b) (TTL b + 1)); [|lia].
    split; reflexivity.
  - intros Hneg.
    replace (CreatedAt b) with (CreatedAt b + 0) at 1 by lia.
    rewrite Sub_exact by (unfold Go.minInt64, Go.maxInt64; lia).
    destruct (Z.ltb_spec (TTL b) 0); [reflexivity | lia].
Qed.

Lemma expiry_boundary_witness :
  (GetAndDelete time.Hour "abc123" sample.fresh_store).1 = sample.data /\
  (GetAndDelete (time.Hour + 1) "abc123" sample.fresh_store).1 = None.
Proof.
  destruct (expiry_boundary sample.fresh_store "abc123"
              (mkBlob sample.data 0 time.Hour)) as [Hedge _].
  - vm_compute. reflexivity.
  - apply Hedge. vm_compute. split; [discriminate | reflexivity].
Defined.

End store_more.

(** * More on the handlers *)

Module relay_more.
Import spec.
Import server.
Import store_spec store_more relay_spec.

Lemma bytes_of_string_nil s : Go.bytes_of_string s = [] -> s = "".
Proof. destruct s; [reflexivity | discriminate]. Qed.

Lemma applied_ttl_le config seconds : applied_ttl config seconds <= MaxTTL config.
Proof.
  unfold applied_ttl. destruct (0 <? seconds); [|lia].
  destruct (Z.ltb_spec (Go.mul64 seconds time.Second) (MaxTTL config)); lia.
Qed.

(** [handleSend] in one equation. *)
Lemma handleSend_cases config now_put now_resp r s :
  handleSend config now_put now_resp r s =
  match Decode config r with
  | None =>
      (writeJSON StatusBadRequest
         (mkSendResponse false "" "invalid request body"), s)
  | Some req =>
      if String.eqb (req_CodeID req) "" || String.eqb (req_Data req) ""
      then (writeJSON StatusBadRequest
              (mkSendResponse false "" "code_id and data are required"), s)
      else
        match blobs s !! req_CodeID req with
        | Some _ =>
            (writeJSON StatusConflict (mkSendResponse false "" ErrConflict), s)
        | None =>
            (writeJSON StatusCreated
               (mkSendResponse true
                  (time.Format_RFC3339
                     (time.Add now_resp (applied_ttl config (req_TTL req)))) ""),
             mkStore (<[req_CodeID req :=
                          mkBlob (Some (Go.bytes_of_string (req_Data req)))
                            now_put (applied_ttl config (req_TTL req))]>
                        (blobs s)))
        end
  end.
Proof.
  unfold handleSend, applied_ttl, Put.
  destruct (Decode config r) as [req|]; [|reflexivity].
  destruct (String.eqb (req_CodeID req) "" || String.eqb (req_Data req) "");
    [reflexivity|].
  destruct (blobs s !! req_CodeID req); reflexivity.
Qed.

(** X6. [handleSend] changes the store only when it answers 201, which is
    also the only answer with [ok] set; it then adds one entry under a code
    ID that was free, and leaves every other code ID as it was. *)
Theorem handleSend_effect (config : Config) (now_put now_resp : time.Time)
    (r : SendBody) (s : Store) :
  (send_OK (body (handleSend config now_put now_resp r s).1) = true <->
   status (handleSend config now_put now_resp r s).1 = StatusCreated) /\
  (status (handleSend config now_put now_resp r s).1 <> StatusCreated ->
   (handleSend config now_put now_resp r s).2 = s) /\
  (status (handleSend config now_put now_resp r s).1 = StatusCreated ->
   exists req,
     Decode config r = Some req /\
     blobs s !! req_CodeID req = None /\
     Count (handleSend config now_put now_resp r s).2 = Count s + 1 /\
     forall id', id' <> req_CodeID req ->
       blobs (handleSend config now_put now_resp r s).2 !! id' = blobs s !! id').
Proof.
  rewrite handleSend_cases.
  destruct (Decode config r) as [req|];
    [|cbn; repeat split; try discriminate; try reflexivity; intros; contradiction].
  destruct (String.eqb (req_CodeID req) "" || String.eqb (req_Data req) "");
    [cbn; repeat split; try discriminate; try reflexivity; intros; contradiction|].
  destruct (blobs s !! req_CodeID req) as [b|] eqn:Hb;
    [cbn; repeat split; try discriminate; try reflexivity; intros; contradiction|].
  cbn [fst snd status body send_OK blobs].
  split; [split; reflexivity|]. split; [intros; contradiction|].
  intros _. exists req. split; [reflexivity|]. split; [exact Hb|]. split.
  - destruct s as [m]. apply Count_insert_fresh. exact Hb.
  - intros id' Hne. apply lookup_insert_ne. congruence.
Qed.

Lemma handleReceive_cases now id s :
  handleReceive now id s =
  if String.eqb id ""
  then (writeJSON StatusBadRequest
          (mkReceiveResponse false "" "missing code ID"), s)
  else
    match (GetAndDelete now id s).1 with
    | None => (not_found_response, (GetAndDelete now id s).2)
    | Some d =>
        (writeJSON StatusOK (mkReceiveResponse true (Go.string_of_bytes d) ""),
         (GetAndDelete now id s).2)
    end.
Proof.
  unfold handleReceive. destruct (String.eqb id ""); [reflexivity|].
  destruct (GetAndDelete now id s) as [[d|] s']; reflexivity.
Qed.

(** A fetch that follows an accepted send, before the TTL has run out. *)
Lemma receive_after_send config now_put now_resp now_recv r req s :
  Decode config r = Some req ->
  status (handleSend config now_put now_resp r s).1 = StatusCreated ->
  time.Since now_recv now_put <= applied_ttl config (req_TTL req) ->
  blobs s !! req_CodeID req = None /\
  handleReceive now_recv (req_CodeID req) (handleSend config now_put now_resp r s).2
    = (writeJSON StatusOK (mkReceiveResponse true (req_Data req) ""), s).
Proof.
  intros Hdec Hst Hsoon. rewrite handleSend_cases, Hdec in *.
  destruct (String.eqb_spec (req_CodeID req) "") as [?|Hid];
    [discriminate Hst|].
  cbn [orb] in *.
  destruct (String.eqb (req_Data req) ""); [discriminate Hst|].
  destruct (blobs s !! req_CodeID req) as [b|] eqn:Hb; [discriminate Hst|].
  cbn [snd]. split; [reflexivity|].
  rewrite handleReceive_cases.
  destruct (String.eqb_spec (req_CodeID req) "") as [?|_]; [contradiction|].
  rewrite (GetAndDelete_live now_recv _ _
             (mkBlob (Some (Go.bytes_of_string (req_Data req))) now_put
                (applied_ttl config (req_TTL req)))).
  - cbn [fst snd Data blobs]. unfold Go.string_of_bytes, Go.bytes_of_string.
    rewrite string_of_list_byte_of_string.
    rewrite delete_insert_id by exact Hb. destruct s; reflexivity.
  - apply lookup_insert_eq.
  - apply expired_false_spec. exact Hsoon.
Qed.

(** X7. After [handleSend] has answered 201, a [handleReceive] for the
    same code ID before the applied TTL has run out answers 200 with the
    very string that was sent, and puts the store back as it was before
    the send; a second [handleReceive] finds nothing. *)
Theorem send_then_receive (config : Config) (now_put now_resp now_recv now_again : time.Time)
    (r : SendBody) (req : SendRequest) (s : Store) :
  Decode config r = Some req ->
  status (handleSend config now_put now_resp r s).1 = StatusCreated ->
  time.Since now_recv now_put <= applied_ttl config (req_TTL req) ->
  handleReceive now_recv (req_CodeID req) (handleSend config now_put now_resp r s).2
    = (writeJSON StatusOK (mkReceiveResponse true (req_Data req) ""), s) /\
  (handleReceive now_again (req_CodeID req) s).1 = not_found_response.
Proof.
  intros Hdec Hst Hsoon.
  destruct (receive_after_send config now_put now_resp now_recv r req s
              Hdec Hst Hsoon) as [Hfree Hrecv].
  split; [exact Hrecv|].
  rewrite handleReceive_cases.
  destruct (String.eqb_spec (req_CodeID req) "") as [Hempty|_].
  - rewrite handleSend_cases, Hdec, Hempty in Hst. discriminate Hst.
  - rewrite (GetAndDelete_absent _ _ _ Hfree). reflexivity.
Qed.

Lemma send_then_receive_witness :
  handleReceive (7 * time.Second) "id1234567"
    (handleSend DefaultConfig 0 5 sample.send_hour NewStore).2
    = (writeJSON StatusOK (mkReceiveResponse true "ZGlmZiBjb250ZW50" ""),
       NewStore) /\
  (handleReceive (9 * time.Second) "id1234567" NewStore).1 = not_found_response.
Proof.
  apply (send_then_receive DefaultConfig 0 5 (7 * time.Second) (9 * time.Second)
           sample.send_hour
           (mkSendRequest "id1234567" "ZGlmZiBjb250ZW50" 3600) NewStore).
  - reflexivity.
  - reflexivity.
  - vm_compute. discriminate.
Defined.

(** ** The invariant of the relay's store *)

Lemma step_well_formed config s s' :
  step config s s' -> well_formed config s -> well_formed config s'.
Proof.
  intros Hstep Hwf. destruct Hstep as [now_put now_resp r s|now id s|now s].
  - rewrite handleSend_cases.
    destruct (Decode config r) as [req|]; [|exact Hwf].
    destruct (String.eqb_spec (req_CodeID req) "") as [?|Hid]; [exact Hwf|].
    destruct (String.eqb_spec (req_Data req) "") as [?|Hdata]; [exact Hwf|].
    cbn [orb]. destruct (blobs s !! req_CodeID req) as [b0|]; [exact Hwf|].
    cbn [snd]. intros id b. cbn [blobs].
    destruct (decide (req_CodeID req = id)) as [<-|Hne].
    + rewrite lookup_insert_eq. intros [= <-]. cbn [Data TTL].
      split; [exact Hid|]. split; [|apply applied_ttl_le].
      eexists. split; [reflexivity|].
      intros Hnil. apply bytes_of_string_nil in Hnil. contradiction.
    + rewrite lookup_insert_ne by exact Hne. apply Hwf.
  - rewrite handleReceive_cases.
    assert (Hsub : forall id' b,
              blobs (GetAndDelete now id s).2 !! id' = Some b ->
              blobs s !! id' = Some b).
    { intros id' b. destruct (decide (id' = id)) as [->|Hne].
      - rewrite GetAndDelete_frees. discriminate.
      - rewrite GetAndDelete_other by congruence. auto. }
    destruct (String.eqb id ""); [exact Hwf|].
    destruct ((GetAndDelete now id s).1); cbn [snd];
      intros id' b Hb; apply (Hwf id' b), Hsub, Hb.
  - intros id b Hb. rewrite Cleanup_store in Hb. cbn [blobs] in Hb.
    apply map_lookup_filter_Some in Hb as [Hb _]. exact (Hwf id b Hb).
Qed.

(** X8. Every store the relay can reach from [NewStore] by serving
    requests and sweeping holds only entries with a non-empty code ID,
    non-empty data, and a TTL that does not exceed [MaxTTL]. *)
Theorem reachable_well_formed (config : Config) (s : Store) :
  reachable config s -> well_formed config s.
Proof.
  unfold reachable. revert s.
  apply (rtc_ind_r (fun s => well_formed config s) NewStore).
  - intros id b Hb. cbn in Hb. rewrite lookup_empty in Hb. discriminate.
  - intros s s' _ Hstep IH. eapply step_well_formed; eassumption.
Qed.

Lemma reachable_well_formed_witness :
  reachable DefaultConfig
    (handleSend DefaultConfig 0 5 sample.send_hour NewStore).2 /\
  well_formed DefaultConfig
    (handleSend DefaultConfig 0 5 sample.send_hour NewStore).2.
Proof.
  assert (Hreach : reachable DefaultConfig
            (handleSend DefaultConfig 0 5 sample.send_hour NewStore).2).
  { unfold reachable. eapply rtc_l; [apply step_send | apply rtc_refl]. }
  split; [exact Hreach|].
  exact (reachable_well_formed DefaultConfig _ Hreach).
Defined.



End relay_more.

(** * formatBytes *)

Module format_spec.
Import server.

Lemma wrap64_small z : Go.minInt64 <= z <= Go.maxInt64 -> Go.wrap64 z = z.
Proof.
  unfold Go.minInt64, Go.maxInt64, Go.wrap64.
  change (2 ^ 63) with 9223372036854775808.
  change (2 ^ 64) with 18446744073709551616.
  intros Hz. rewrite Z.mod_small by lia. lia.
Qed.

Lemma formatBytes_loop_spec fuel : forall n div exp b,
  1 <= n < unit ^ Z.of_nat fuel ->
  0 < div -> div * n <= b -> b < div * (n + 1) -> b <= Go.maxInt64 ->
  0 <= exp -> div = unit ^ (exp + 1) ->
  exists div' exp',
    formatBytes_loop fuel n div exp = Some (div', exp') /\
    exp <= exp' /\ div' = unit ^ (exp' + 1) /\ div' <= b < unit * div'.
Proof.
  unfold unit. induction fuel as [|fuel IH]; intros n div exp b Hn Hdiv Hlo Hhi Hmax Hexp Hpow.
  - cbn in Hn. lia.
  - cbn [formatBytes_loop]. unfold unit.
    destruct (Z.leb_spec 1024 n) as [Hbig|Hsmall].
    + rewrite Z.quot_div_nonneg by lia.
      assert (Hq : 1024 * (n / 1024) <= n < 1024 * (n / 1024 + 1)).
      { pose proof (Z.mul_div_le n 1024 ltac:(lia)).
        pose proof (Z.mul_succ_div_gt n 1024 ltac:(lia)). lia. }
      assert (Hq1 : 1 <= n / 1024) by (apply Z.div_le_lower_bound; lia).
      assert (Hmul : Go.mul64 div 1024 = div * 1024).
      { unfold Go.mul64. apply wrap64_small.
        unfold Go.minInt64, Go.maxInt64 in *. nia. }
      rewrite Hmul.
      destruct (IH (n / 1024) (div * 1024) (exp + 1) b) as (div' & exp' & Hrun & Hle & Hpow' & Hb).
      * split; [exact Hq1|].
        rewrite Nat2Z.inj_succ, Z.pow_succ_r in Hn by lia.
        apply Z.div_lt_upper_bound; lia.
      * lia.
      * nia.
      * nia.
      * exact Hmax.
      * lia.
      * rewrite Hpow. replace (exp + 1 + 1) with (Z.succ (exp + 1)) by lia.
        rewrite Z.pow_succ_r by lia. lia.
      * exists div', exp'. repeat split; try assumption; lia.
    + exists div, exp. repeat split; try assumption; try lia; nia.
Qed.

(** X10. For every [int64] size, [formatBytes] returns a string and does
    not panic: below 1024 it prints the number of bytes; from 1024 on it
    picks the power [div] of 1024 with [div <= b < 1024 * div], no larger
    than 1024^6, and the letter of "KMGTPE" for that power. *)
Theorem formatBytes_units (format_ratio : Z -> Z -> string) (b : Z) :
  b <= Go.maxInt64 ->
  (b < 1024 ->
     formatBytes format_ratio b = Some (Go.Ok (pretty b +:+ " B"))) /\
  (1024 <= b ->
     exists div exp c,
       formatBytes format_ratio b
         = Some (Go.Ok (format_ratio b div +:+ " " +:+ String c "B")) /\
       0 <= exp <= 5 /\ div = 1024 ^ (exp + 1) /\ div <= b < 1024 * div /\
       String.get (Z.to_nat exp) "KMGTPE" = Some c).
Proof.
  intros Hmax. unfold formatBytes, unit. split.
  - intros Hlt. apply Z.ltb_lt in Hlt. rewrite Hlt. reflexivity.
  - intros Hge. destruct (Z.ltb_spec b 1024) as [?|_]; [lia|].
    rewrite Z.quot_div_nonneg by lia.
    assert (Hq : 1024 * (b / 1024) <= b < 1024 * (b / 1024 + 1)).
    { pose proof (Z.mul_div_le b 1024 ltac:(lia)).
      pose proof (Z.mul_succ_div_gt b 1024 ltac:(lia)). lia. }
    destruct (formatBytes_loop_spec 64 (b / 1024) 1024 0 b)
      as (div & exp & Hrun & Hexp & Hpow & Hb); unfold unit in *;
      try lia; try reflexivity.
    { split; [apply Z.div_le_lower_bound; lia|].
      apply Z.div_lt_upper_bound; [lia|].
      unfold Go.maxInt64 in Hmax.
      change (2 ^ 63 - 1) with 9223372036854775807 in Hmax.
      change (Z.of_nat 64) with 64.
      assert (9223372036854775807 < 1024 * 1024 ^ 64); [|lia].
      vm_compute. reflexivity. }
    rewrite Hrun.
    assert (Hexp5 : exp <= 5).
    { destruct (Z.le_gt_cases exp 5) as [?|Hgt]; [assumption|exfalso].
      assert (1024 ^ 7 <= 1024 ^ (exp + 1))
        by (apply Z.pow_le_mono_r; lia).
      unfold Go.maxInt64 in Hmax.
      change (2 ^ 63 - 1) with 9223372036854775807 in Hmax.
      change (1024 ^ 7) with 1180591620717411303424 in *. lia. }
    assert (Hcases : exp = 0 \/ exp = 1 \/ exp = 2 \/ exp = 3 \/ exp = 4 \/ exp = 5)
      by lia.
    exists div, exp.
    destruct Hcases as [He|[He|[He|[He|[He|He]]]]]; rewrite He in *;
      eexists; (split; [reflexivity|]);
      (split; [lia|]); (split; [exact Hpow|]); (split; [lia|]); reflexivity.
Qed.

Lemma formatBytes_units_witness :
  MaxSize DefaultConfig <= Go.maxInt64 /\
  exists div exp c,
    formatBytes (fun b div => pretty (b / div)) (MaxSize DefaultConfig)
      = Some (Go.Ok (pretty (MaxSize DefaultConfig / div) +:+ " " +:+ String c "B")) /\
    0 <= exp <= 5 /\ div = 1024 ^ (exp + 1) /\
    div <= MaxSize DefaultConfig < 1024 * div /\
    String.get (Z.to_nat exp) "KMGTPE" = Some c.
Proof.
  assert (Hmax : MaxSize DefaultConfig <= Go.maxInt64)
    by (vm_compute; discriminate).
  split; [exact Hmax|].
  apply (formatBytes_units (fun b div => pretty (b / div))
           (MaxSize DefaultConfig) Hmax).
  vm_compute. discriminate.
Defined.

End format_spec.

(** * The client *)

Module client_spec.
Import spec.
Import store_spec relay_more.

(** [Send] goes by the [ok] field alone: it returns the decoded
    response exactly when the exchange produced an answer with [ok] set,
    whatever the status code; an answer without [ok] becomes the error
    "server error: " followed by the server's text. *)
Lemma Send_outcome (c : client.Client) (codeID data : string) (ttlSeconds : Z) :
  (forall sendResp,
     client.Send c codeID data ttlSeconds = Go.Ok sendResp <->
     exists code,
       client.httpClient_Post c (client.baseURL c +:+ "/api/send")
         (client.mkSendRequest codeID data ttlSeconds)
         = client.Answer code sendResp /\
       client.send_OK sendResp = true) /\
  (forall code sendResp,
     client.httpClient_Post c (client.baseURL c +:+ "/api/send")
       (client.mkSendRequest codeID data ttlSeconds)
       = client.Answer code sendResp ->
     client.send_OK sendResp = false ->
     client.Send c codeID data ttlSeconds
       = Go.Err ("server error: " +:+ client.send_Error sendResp)).
Proof.
  unfold client.Send. split.
  - intros sendResp. split.
    + destruct (client.httpClient_Post c _ _) as [e|e|e|code resp];
        try discriminate.
      destruct (client.send_OK resp) eqn:Hok; [|discriminate].
      intros [= <-]. exists code. auto.
    + intros (code & -> & ->). reflexivity.
  - intros code sendResp -> ->. reflexivity.
Qed.

(** [Receive] returns the data exactly when the exchange produced an
    answer with [ok] set. An answer without [ok] becomes one fixed error
    when the status is 404, whatever text the server sent, and "server
    error: " followed by the server's text for any other status. *)
Lemma Receive_outcome (c : client.Client)
    (httpClient_Get : string -> client.GetExchange) (codeID : string) :
  (forall data,
     client.Receive c httpClient_Get codeID = Go.Ok data <->
     exists code recvResp,
       httpClient_Get (client.baseURL c +:+ "/api/receive/" +:+ codeID)
         = client.GetAnswer code recvResp /\
       client.recv_OK recvResp = true /\ client.recv_Data recvResp = data) /\
  (forall code recvResp,
     httpClient_Get (client.baseURL c +:+ "/api/receive/" +:+ codeID)
       = client.GetAnswer code recvResp ->
     client.recv_OK recvResp = false ->
     client.Receive c httpClient_Get codeID
       = Go.Err (if code =? 404 then client.ErrPatchNotFound
                 else "server error: " +:+ client.recv_Error recvResp)).
Proof.
  unfold client.Receive. split.
  - intros data. split.
    + destruct (httpClient_Get _) as [e|e|e|code resp]; try discriminate.
      destruct (client.recv_OK resp) eqn:Hok; cbn [negb].
      * intros [= <-]. exists code, resp. auto.
      * destruct (code =? client.StatusNotFound); discriminate.
    + intros (code & resp & -> & -> & <-). reflexivity.
  - intros code recvResp -> ->. cbn [negb].
    change client.StatusNotFound with 404.
    destruct (code =? 404); reflexivity.
Qed.



End client_spec.

(** * More on the code scheme *)

Module code_more.
Import spec.
Import code_spec.

(** ** Cutting and counting *)

Lemma cut_char c s :
  match strings.cut (String c "") s with
  | None => free_of c s = true
  | Some (a, b) => s = a +:+ String c b /\ free_of c a = true
  end.
Proof.
  induction s as [|x s IH]; [reflexivity|].
  simpl. destruct (Ascii.eqb_spec c x) as [->|Hne].
  - split; reflexivity.
  - simpl in IH. destruct (strings.cut (String c "") s) as [[a b]|].
    + destruct IH as [-> Hfree]. split; [reflexivity|].
      simpl. rewrite Hfree.
      destruct (Ascii.eqb_spec c x); [contradiction | reflexivity].
    + exact IH.
Qed.

Lemma count_free c s : free_of c s = true <-> count c s = 0%nat.
Proof.
  induction s as [|x s IH]; [split; reflexivity|].
  simpl. destruct (Ascii.eqb c x); simpl; [split; discriminate | exact IH].
Qed.

Lemma count_app c a b : count c (a +:+ b) = (count c a + count c b)%nat.
Proof.
  induction a as [|x a IH]; [reflexivity|].
  simpl. destruct (Ascii.eqb c x); rewrite IH; reflexivity.
Qed.

Lemma count_cut c a b :
  free_of c a = true -> count c (a +:+ String c b) = S (count c b).
Proof.
  intros Hfree. rewrite count_app. apply count_free in Hfree. rewrite Hfree.
  simpl. rewrite Ascii.eqb_refl. reflexivity.
Qed.

Lemma count_le_length c s : (count c s <= String.length s)%nat.
Proof.
  induction s as [|x s IH]; [reflexivity|].
  simpl. destruct (Ascii.eqb c x); lia.
Qed.

Lemma Count_loop_count c fuel : forall s,
  (String.length s <= fuel)%nat ->
  strings.Count_loop fuel (String c "") s = Z.of_nat (count c s).
Proof.
  induction fuel as [|fuel IH]; intros s Hlen.
  - destruct s; [reflexivity | simpl in Hlen; lia].
  - cbn [strings.Count_loop]. pose proof (cut_char c s) as Hcut.
    destruct (strings.cut (String c "") s) as [[a b]|].
    + destruct Hcut as [-> Hfree]. rewrite (count_cut _ _ _ Hfree).
      rewrite length_app_string in Hlen. simpl in Hlen.
      rewrite IH by lia. lia.
    + apply count_free in Hcut. rewrite Hcut. reflexivity.
Qed.

Lemma split_loop_length c k : forall s,
  length (strings.split_loop k (String c "") s) = S (Nat.min k (count c s)).
Proof.
  induction k as [|k IH]; intros s; [reflexivity|].
  cbn [strings.split_loop]. pose proof (cut_char c s) as Hcut.
  destruct (strings.cut (String c "") s) as [[a b]|].
  - destruct Hcut as [-> Hfree]. rewrite (count_cut _ _ _ Hfree).
    cbn [length]. rewrite IH. reflexivity.
  - apply count_free in Hcut. rewrite Hcut. reflexivity.
Qed.

(** [Split] at a character returns one piece more than the string has
    occurrences of it. *)
Lemma Split_length c s :
  length (strings.Split s (String c "")) = S (count c s).
Proof.
  unfold strings.Split, strings.genSplit.
  cbn [Z.eqb String.eqb]. change (-1 <? 0) with true. cbv iota.
  unfold strings.Count. rewrite Count_loop_count by reflexivity.
  pose proof (count_le_length c s) as Hle.
  destruct (Z.ltb_spec (Z.of_nat (String.length s) + 1)
              (Z.of_nat (count c s) + 1)) as [?|_]; [lia|].
  replace (Z.to_nat (Z.of_nat (count c s) + 1 - 1)) with (count c s) by lia.
  rewrite split_loop_length. f_equal. lia.
Qed.

(** [SplitN] with a limit of two pieces, on any string. *)
Lemma SplitN_2_cases c s :
  strings.SplitN s (String c "") 2 =
  match strings.cut (String c "") s with
  | Some (a, b) => [a; b]
  | None => [s]
  end.
Proof.
  unfold strings.SplitN, strings.genSplit.
  cbn [Z.eqb String.eqb]. change (2 <? 0) with false. cbv iota.
  destruct s as [|x s].
  - reflexivity.
  - destruct (Z.ltb_spec (Z.of_nat (String.length (String x s)) + 1) 2)
      as [Hlt|_]; [simpl in Hlt; lia|].
    change (Z.to_nat (2 - 1)) with 1%nat. cbn [strings.split_loop].
    destruct (strings.cut (String c "") (String x s)) as [[a b]|]; reflexivity.
Qed.

Lemma count_nonempty c s n : count c s = S n -> s <> "".
Proof. intros Hc ->. discriminate Hc. Qed.

Lemma count_Join c w ws :
  Forall (fun x => free_of c x = true) (w :: ws) ->
  count c (strings.Join (w :: ws) (String c "")) = length ws.
Proof.
  revert w. induction ws as [|w' ws IH]; intros w Hall.
  - apply Forall_cons in Hall as [Hw _]. apply count_free. exact Hw.
  - apply Forall_cons in Hall as [Hw Hall]. rewrite Join_cons.
    change (String c "" +:+ strings.Join (w' :: ws) (String c ""))
      with (String c (strings.Join (w' :: ws) (String c ""))).
    rewrite (count_cut _ _ _ Hw), (IH _ Hall). reflexivity.
Qed.

Lemma ParseCode_Ok_elim code codeID passphrase :
  crypto.ParseCode code = Go.Ok (codeID, passphrase) ->
  code = codeID +:+ crypto.CodeSep +:+ passphrase /\
  codeID <> "" /\ free_of dash codeID = true /\
  count dash passphrase = 3%nat.
Proof.
  unfold crypto.ParseCode.
  change crypto.CodeSep with (String dash "").
  change crypto.PassphraseSep with (String dash "").
  change crypto.PassphraseWords with 4.
  rewrite SplitN_2_cases. pose proof (cut_char dash code) as Hcut.
  destruct (strings.cut (String dash "") code) as [[a b]|]; [|discriminate].
  destruct Hcut as [-> Hfree].
  destruct (String.eqb_spec a "") as [?|Ha]; [discriminate|].
  destruct (String.eqb_spec b "") as [?|Hb]; [discriminate|].
  cbn [orb]. rewrite Split_length.
  destruct (Z.eqb_spec (Z.of_nat (S (count dash b))) 4) as [Hn|?];
    [|discriminate].
  intros [= <- <-]. repeat split; try assumption. lia.
Qed.

Lemma ParseCode_Ok_intro codeID passphrase :
  codeID <> "" -> free_of dash codeID = true ->
  count dash passphrase = 3%nat ->
  crypto.ParseCode (codeID +:+ crypto.CodeSep +:+ passphrase)
    = Go.Ok (codeID, passphrase).
Proof.
  intros Hid Hfree Hcount. unfold crypto.ParseCode.
  change crypto.CodeSep with (String dash "").
  change crypto.PassphraseSep with (String dash "").
  change crypto.PassphraseWords with 4.
  change (String dash "" +:+ passphrase) with (String dash passphrase).
  rewrite (SplitN_2 _ _ _ Hfree).
  destruct (String.eqb_spec codeID "") as [?|_]; [contradiction|].
  destruct (String.eqb_spec passphrase "") as [Hp|_].
  { exfalso. exact (count_nonempty _ _ _ Hcount Hp). }
  cbn [orb]. rewrite Split_length, Hcount. reflexivity.
Qed.

(** The code [GenerateCode] returns parses back. *)
Lemma ParseCode_generated {R : rand.Reader} (r r' : rand.state)
    code codeID passphrase :
  crypto.GenerateCode r = (Go.Ok (code, codeID, passphrase), r') ->
  crypto.ParseCode code = Go.Ok (codeID, passphrase) /\ codeID <> "".
Proof.
  intros Hgen.
  apply GenerateCode_Ok in Hgen
    as (w1 & w2 & w3 & w4 & Hlen & Hfree & Hall & -> & ->).
  assert (Hid : codeID <> "") by (intros ->; discriminate Hlen).
  split; [|exact Hid].
  apply ParseCode_Ok_intro; [exact Hid | exact Hfree |].
  change crypto.PassphraseSep with (String dash "").
  rewrite (count_Join _ _ _ Hall). reflexivity.
Qed.

(** X12. [ParseCode] succeeds with [(codeID, passphrase)] exactly on the
    strings [codeID-passphrase] in which the code ID is not empty and has
    no separator and the passphrase has exactly three separators; the
    words between them may be anything, even empty. *)
Theorem ParseCode_Ok_iff (code codeID passphrase : string) :
  crypto.ParseCode code = Go.Ok (codeID, passphrase) <->
  code = codeID +:+ crypto.CodeSep +:+ passphrase /\
  codeID <> "" /\ free_of dash codeID = true /\
  count dash passphrase = 3%nat.
Proof.
  split.
  - apply ParseCode_Ok_elim.
  - intros (-> & Hid & Hfree & Hcount).
    apply ParseCode_Ok_intro; assumption.
Qed.

(** X13. What [ParseCode] answers to the rest: a string without separator,
    or with nothing before or after the first one, gets the "expected
    ..." error; any other string whose passphrase half does not have three
    separators gets an error that reports the number of words found. *)
Theorem ParseCode_errors :
  (forall code, free_of dash code = true ->
     crypto.ParseCode code = Go.Err crypto.ErrInvalidFormat) /\
  (forall codeID passphrase, free_of dash codeID = true ->
     codeID = "" \/ passphrase = "" ->
     crypto.ParseCode (codeID +:+ crypto.CodeSep +:+ passphrase)
       = Go.Err crypto.ErrInvalidFormat) /\
  (forall codeID passphrase, free_of dash codeID = true ->
     codeID <> "" -> passphrase <> "" -> count dash passphrase <> 3%nat ->
     crypto.ParseCode (codeID +:+ crypto.CodeSep +:+ passphrase)
       = Go.Err ("invalid code format: passphrase should have 4 words, got "
                   +:+ pretty (S (count dash passphrase)))).
Proof.
  unfold crypto.ParseCode.
  change crypto.CodeSep with (String dash "").
  change crypto.PassphraseSep with (String dash "").
  change crypto.PassphraseWords with 4.
  split; [|split].
  - intros code Hfree. rewrite SplitN_2_cases, (cut_absent _ _ Hfree).
    reflexivity.
  - intros codeID passphrase Hfree Hempty.
    change (String dash "" +:+ passphrase) with (String dash passphrase).
    rewrite (SplitN_2 _ _ _ Hfree).
    destruct Hempty as [-> | ->]; [reflexivity|].
    destruct (String.eqb codeID ""); reflexivity.
  - intros codeID passphrase Hfree Hid Hpass Hcount.
    change (String dash "" +:+ passphrase) with (String dash passphrase).
    rewrite (SplitN_2 _ _ _ Hfree).
    destruct (String.eqb_spec codeID "") as [?|_]; [contradiction|].
    destruct (String.eqb_spec passphrase "") as [?|_]; [contradiction|].
    cbn [orb]. rewrite Split_length.
    destruct (Z.eqb_spec (Z.of_nat (S (count dash passphrase))) 4) as [?|_];
      [lia|].
    reflexivity.
Qed.

End code_more.


(** * More on code generation *)

Module generate_more.
Import spec.
Import code_spec.

(** ** The tape meets the contract of [rand.Int] *)

Lemma tape_Int_loop_range fuel max k bits : forall t n t',
  0 <= bits ->
  toy.tape_Int_loop fuel max k bits t = (Go.Ok n, t') -> 0 <= n < max.
Proof.
  induction fuel as [|fuel IH]; intros t n t' Hbits; [discriminate|].
  cbn [toy.tape_Int_loop].
  destruct (toy.tape_Read k t) as [[bs|e|] t1]; try discriminate.
  destruct (Z.ltb_spec (toy.big_endian bs mod 2 ^ bits) max) as [Hlt|_].
  - intros [= <- _]. split; [|exact Hlt].
    apply Z.mod_pos_bound, Z.pow_pos_nonneg; lia.
  - apply IH. exact Hbits.
Qed.

Lemma tape_Int_loop_no_panic fuel max k bits : forall t,
  (toy.tape_Int_loop fuel max k bits t).1 <> Go.Panic.
Proof.
  induction fuel as [|fuel IH]; intros t; [discriminate|].
  cbn [toy.tape_Int_loop]. unfold toy.tape_Read.
  destruct (length t <? k)%nat; [discriminate|].
  destruct (toy.big_endian (take k t) mod 2 ^ bits <? max);
    [discriminate | apply IH].
Qed.

Lemma bitLen_nonneg n : 0 <= toy.bitLen n.
Proof.
  unfold toy.bitLen. destruct (n <=? 0); [lia|].
  pose proof (Z.log2_nonneg n). lia.
Qed.

Lemma tape_int_laws : rand.IntLaws toy.tape.
Proof.
  constructor.
  - intros max r n r'. cbn [rand.Int toy.tape]. unfold toy.tape_Int.
    destruct (Z.leb_spec max 0) as [?|Hpos]; [discriminate|].
    destruct (toy.bitLen (max - 1) =? 0).
    + intros [= <- _]. lia.
    + apply tape_Int_loop_range, bitLen_nonneg.
  - intros max r Hpos. cbn [rand.Int toy.tape]. unfold toy.tape_Int.
    destruct (Z.leb_spec max 0) as [?|_]; [lia|].
    destruct (toy.bitLen (max - 1) =? 0); [discriminate|].
    apply tape_Int_loop_no_panic.
Qed.

(** ** The shape of what [GenerateCode] returns *)

Lemma string_index_over alphabet i c :
  Go.string_index alphabet i = Go.Ok c ->
  exists n, String.get n alphabet = Some c.
Proof.
  unfold Go.string_index. destruct (i <? 0); [discriminate|].
  destruct (String.get (Z.to_nat i) alphabet) as [x|] eqn:Hget; [|discriminate].
  intros [= <-]. eauto.
Qed.

Lemma slice_index_elem {A : Type} (l : list A) i x :
  Go.slice_index l i = Go.Ok x -> x ∈ l.
Proof.
  unfold Go.slice_index. destruct (i <? 0); [discriminate|].
  destruct (l !! Z.to_nat i) as [y|] eqn:Hget; [|discriminate].
  intros [= <-]. exact (list_elem_of_lookup_2 _ _ _ Hget).
Qed.

Section shape.
Context {R : rand.Reader}.

Lemma generateCodeID_loop_over n r s r' :
  crypto.generateCodeID_loop n r = (Go.Ok s, r') ->
  over crypto.base62Chars s.
Proof.
  revert r s r'. induction n as [|n IH]; intros r s r' Hrun.
  - apply ret_Ok in Hrun as [-> _]. exact I.
  - cbn [crypto.generateCodeID_loop] in Hrun.
    apply bind_Ok in Hrun as (idx & r1 & _ & Hrun).
    apply bind_Ok in Hrun as (c & r2 & Hc & Hrun).
    apply bind_Ok in Hrun as (rest & r3 & Hrest & Hrun).
    apply ret_Ok in Hrun as [-> _].
    apply lift_Ok in Hc as [Hc _]. apply string_index_over in Hc.
    split; [exact Hc | exact (IH _ _ _ Hrest)].
Qed.

Lemma Pick_loop_elems n r ws r' :
  wordlist.Pick_loop n r = (Go.Ok ws, r') ->
  Forall (fun w => w ∈ wordlist.Words) ws.
Proof.
  revert r ws r'. induction n as [|n IH]; intros r ws r' Hrun.
  - apply ret_Ok in Hrun as [-> _]. constructor.
  - cbn [wordlist.Pick_loop] in Hrun.
    apply bind_Ok in Hrun as (idx & r1 & _ & Hrun).
    apply bind_Ok in Hrun as (w & r2 & Hw & Hrun).
    apply bind_Ok in Hrun as (rest & r3 & Hrest & Hrun).
    apply ret_Ok in Hrun as [-> _].
    apply lift_Ok in Hw as [Hw _]. apply slice_index_elem in Hw.
    constructor; [exact Hw | exact (IH _ _ _ Hrest)].
Qed.

End shape.

(** X14. What a successful [GenerateCode] returns: a code ID of ten
    characters of the base62 alphabet, a passphrase made of four words of
    the word list joined by the separator, and the code that glues the two
    with the separator. *)
Theorem GenerateCode_shape (R : rand.Reader) (r r' : rand.state)
    (code codeID passphrase : string) :
  crypto.GenerateCode r = (Go.Ok (code, codeID, passphrase), r') ->
  String.length codeID = 10%nat /\
  over crypto.base62Chars codeID /\
  (exists ws, length ws = 4%nat /\
     Forall (fun w => w ∈ wordlist.Words) ws /\
     passphrase = strings.Join ws "-") /\
  code = codeID +:+ "-" +:+ passphrase.
Proof.
  unfold crypto.GenerateCode. intros Hrun.
  apply bind_Ok in Hrun as (id & r1 & Hid & Hrun).
  apply bind_Ok in Hrun as (pass & r2 & Hpass & Hrun).
  apply ret_Ok in Hrun as [[= -> -> ->] _].
  apply wrap_err_Ok in Hid. unfold crypto.generateCodeID in Hid.
  pose proof (generateCodeID_loop_Ok _ _ _ _ Hid) as [Hlen _].
  apply generateCodeID_loop_over in Hid.
  apply wrap_err_Ok in Hpass. unfold wordlist.Pick in Hpass.
  change (crypto.PassphraseWords <? 0) with false in Hpass. cbv iota in Hpass.
  apply bind_Ok in Hpass as (ws & r3 & Hws & Hpass).
  apply ret_Ok in Hpass as [-> _].
  pose proof (Pick_loop_Ok _ _ _ _ Hws) as [Hn _].
  apply Pick_loop_elems in Hws.
  split; [exact Hlen|]. split; [exact Hid|]. split; [|reflexivity].
  exists ws. split; [exact Hn|]. split; [exact Hws | reflexivity].
Qed.

Lemma GenerateCode_shape_witness :
  String.length "AaP0z1iH5p" = 10%nat /\
  over crypto.base62Chars "AaP0z1iH5p" /\
  (exists ws, length ws = 4%nat /\
     Forall (fun w => w ∈ wordlist.Words) ws /\
     "hole-ease-atom-clay" = strings.Join ws "-") /\
  "AaP0z1iH5p-hole-ease-atom-clay" = "AaP0z1iH5p" +:+ "-" +:+ "hole-ease-atom-clay".
Proof.
  apply (GenerateCode_shape toy.tape toy.sample_tape (drop 16 toy.sample_tape)).
  vm_compute. reflexivity.
Defined.

(** ** [GenerateCode] does not panic *)

Lemma get_in_range s n :
  (n < String.length s)%nat -> exists c, String.get n s = Some c.
Proof.
  revert n. induction s as [|x s IH]; intros n Hn; [simpl in Hn; lia|].
  destruct n as [|n]; [eexists; reflexivity|].
  simpl. apply IH. simpl in Hn. lia.
Qed.

Section no_panic.
Context {R : rand.Reader} {RL : rand.IntLaws R}.

Lemma generateCodeID_loop_total n r :
  match (crypto.generateCodeID_loop n r).1 with
  | Go.Ok _ => True
  | Go.Err e => draw_error 62 e
  | Go.Panic => False
  end.
Proof.
  revert r. induction n as [|n IH]; intros r; [exact I|].
  cbn [crypto.generateCodeID_loop]. unfold Go.bind at 1.
  change (Z.of_nat (String.length crypto.base62Chars)) with 62.
  pose proof (rand.Int_no_panic 62 r ltac:(lia)) as Hnp.
  destruct (rand.Int 62 r) as [[idx|e|] r1] eqn:Hint.
  - apply rand.Int_range in Hint as Hrange.
    unfold Go.bind at 1, Go.lift, Go.string_index.
    destruct (Z.ltb_spec idx 0) as [?|_]; [lia|].
    destruct (get_in_range crypto.base62Chars (Z.to_nat idx)) as [c Hc].
    { change (String.length crypto.base62Chars) with 62%nat. lia. }
    rewrite Hc. unfold Go.bind, Go.ret. specialize (IH r1).
    destruct (crypto.generateCodeID_loop n r1) as [[rest|e|] r2]; exact IH.
  - exists r. rewrite Hint. reflexivity.
  - contradiction.
Qed.

Lemma Pick_loop_total n r :
  match (wordlist.Pick_loop n r).1 with
  | Go.Ok _ => True
  | Go.Err e => draw_error 256 e
  | Go.Panic => False
  end.
Proof.
  revert r. induction n as [|n IH]; intros r; [exact I|].
  cbn [wordlist.Pick_loop]. unfold Go.bind at 1.
  change (Z.of_nat (length wordlist.Words)) with 256.
  pose proof (rand.Int_no_panic 256 r ltac:(lia)) as Hnp.
  destruct (rand.Int 256 r) as [[idx|e|] r1] eqn:Hint.
  - apply rand.Int_range in Hint as Hrange.
    unfold Go.bind at 1, Go.lift, Go.slice_index.
    destruct (Z.ltb_spec idx 0) as [?|_]; [lia|].
    destruct (lookup_lt_is_Some_2 wordlist.Words (Z.to_nat idx)) as [w Hw].
    { change (length wordlist.Words) with 256%nat. lia. }
    rewrite Hw. unfold Go.bind, Go.ret. specialize (IH r1).
    destruct (wordlist.Pick_loop n r1) as [[rest|e|] r2]; exact IH.
  - exists r. rewrite Hint. reflexivity.
  - contradiction.
Qed.

End no_panic.

(** X15. With a random source whose [rand.Int] stays within its bound,
    [GenerateCode] never panics on an index, and it fails only when a draw
    fails, with the error of that draw under the prefix "generating code
    ID" or "generating passphrase". *)
Theorem GenerateCode_total (R : rand.Reader) (RL : rand.IntLaws R)
    (r : rand.state) :
  match (crypto.GenerateCode r).1 with
  | Go.Ok _ => True
  | Go.Err e =>
      exists e',
        (draw_error 62 e' /\ e = Go.wrapf "generating code ID" e') \/
        (draw_error 256 e' /\ e = Go.wrapf "generating passphrase" e')
  | Go.Panic => False
  end.
Proof.
  unfold crypto.GenerateCode, crypto.generateCodeID.
  unfold Go.bind at 1, Go.wrap_err at 1.
  pose proof (generateCodeID_loop_total crypto.CodeIDLength r) as Hid.
  destruct (crypto.generateCodeID_loop crypto.CodeIDLength r)
    as [[id|e|] r1]; cbn [fst] in *; [|eauto|contradiction].
  unfold Go.bind at 1, Go.wrap_err, wordlist.Pick.
  change (crypto.PassphraseWords <? 0) with false. cbv iota.
  change (Z.to_nat crypto.PassphraseWords) with 4%nat.
  unfold Go.bind at 1.
  pose proof (Pick_loop_total 4 r1) as Hpick.
  destruct (wordlist.Pick_loop 4 r1) as [[ws|e|] r2]; cbn [fst] in *;
    [exact I | eauto | contradiction].
Qed.

Lemma GenerateCode_total_witness :
  match (crypto.GenerateCode (R:=toy.tape) (take 12 toy.sample_tape)).1 with
  | Go.Ok _ => True
  | Go.Err e =>
      exists e',
        (draw_error (R:=toy.tape) 62 e' /\ e = Go.wrapf "generating code ID" e') \/
        (draw_error (R:=toy.tape) 256 e' /\ e = Go.wrapf "generating passphrase" e')
  | Go.Panic => False
  end.
Proof.
  exact (GenerateCode_total toy.tape tape_int_laws (take 12 toy.sample_tape)).
Defined.

End generate_more.

(** * More on the cipher *)

Module cipher_more.
Import spec chacha20poly1305.

(** X16. A key that is not 32 bytes long is refused by [Encrypt] and by
    [Decrypt] alike, with the error of the cipher under the prefix
    "creating cipher"; [Encrypt] then draws no nonce. *)
Theorem bad_key_rejected (R : rand.Reader) (A : AEAD)
    (plaintext ciphertext key : list byte) (r : rand.state) :
  length key <> KeySize ->
  crypto.Encrypt plaintext key r
    = (Go.Err "creating cipher: chacha20poly1305: bad key length", r) /\
  crypto.Decrypt ciphertext key
    = Go.Err "creating cipher: chacha20poly1305: bad key length".
Proof.
  intros Hlen. unfold crypto.Encrypt, crypto.Decrypt, NewX.
  destruct (Nat.eqb_spec (length key) KeySize) as [?|_]; [contradiction|].
  split; reflexivity.
Qed.

Lemma bad_key_rejected_witness :
  crypto.Encrypt (R:=toy.tape) (A:=toy.cipher)
    (Go.bytes_of_string "diff content") (Go.bytes_of_string "key")
    toy.sample_tape
    = (Go.Err "creating cipher: chacha20poly1305: bad key length",
       toy.sample_tape) /\
  crypto.Decrypt (A:=toy.cipher) sample.nonce_only (Go.bytes_of_string "key")
    = Go.Err "creating cipher: chacha20poly1305: bad key length".
Proof.
  apply (bad_key_rejected toy.tape toy.cipher). vm_compute. discriminate.
Defined.

End cipher_more.

(** * The send and receive commands *)

Module cmd_spec.
Import spec.

Lemma plain_laws : base64.EncodingLaws toy.plain.
Proof.
  constructor.
  - intros b. cbn [base64.DecodeString base64.EncodeToString toy.plain].
    unfold Go.bytes_of_string, Go.string_of_bytes.
    rewrite list_byte_of_string_of_list_byte. reflexivity.
  - intros b Hb. cbn [base64.EncodeToString toy.plain].
    destruct b; [contradiction | discriminate].
Qed.

(** Take apart the first test a run is stuck on. *)
Ltac split_run H :=
  match type of H with
  | context [match ?x with _ => _ end] =>
      lazymatch x with
      | context [match _ with _ => _ end] => fail
      | _ => destruct x eqn:?
      end
  end.

Ltac unfold_run H :=
  unfold cmd.runSendWithDeps, cmd.runReceive, cmd.and_then, cmd.call,
    cmd.emit, cmd.wrapping, cmd.pure, cmd.done in H;
  cbn beta iota zeta in H.

Ltac run_cases H :=
  unfold_run H;
  repeat (split_run H; cbn beta iota zeta in H; try discriminate H).

Section send.
Context {E : base64.Encoding}.
Variable ParseDuration : string -> Go.result time.Duration.
Variable Seconds : time.Duration -> Z.
Variable Quote : string -> string.

(** What a successful run of the sender went through. *)
Lemma runSend_Ok_inv deps args staged ttlStr ev :
  cmd.runSendWithDeps ParseDuration Seconds Quote deps args staged ttlStr
    = (ev, Go.Ok tt) ->
  exists patch code codeID passphrase key encrypted ttl resp,
    collected deps args staged = Go.Ok patch /\
    cmd.GenerateCode deps = Go.Ok (code, codeID, passphrase) /\
    cmd.DeriveKey deps passphrase = Go.Ok key /\
    cmd.Encrypt deps patch key = Go.Ok encrypted /\
    ParseDuration ttlStr = Go.Ok ttl /\
    cmd.Send deps codeID (base64.EncodeToString encrypted) (Seconds ttl)
      = Go.Ok resp /\
    sends_of ev = [(codeID, base64.EncodeToString encrypted, Seconds ttl)].
Proof.
  intros Hrun. run_cases Hrun.
  all: injection Hrun as <-; subst.
  all: repeat match goal with p : _ * _ |- _ => destruct p end.
  all: do 8 eexists; unfold collected.
  all: repeat split; try eassumption; reflexivity.
Qed.

(** X17. When [runSendWithDeps] returns without error, every step
    succeeded; [Send] was called once, with the generated code ID, the
    base64 text of what [Encrypt] returned for the collected patch under
    the derived key, and the seconds of the parsed TTL; and standard
    output holds the receive command with the generated code, followed by
    its [--commit] form exactly when a commit was named. *)
Theorem runSend_success (deps : cmd.sendDeps) (args : list string)
    (staged : bool) (ttlStr : string) (ev : list cmd.event) :
  cmd.runSendWithDeps ParseDuration Seconds Quote deps args staged ttlStr
    = (ev, Go.Ok tt) ->
  exists patch code codeID passphrase key encrypted ttl resp,
    collected deps args staged = Go.Ok patch /\
    cmd.GenerateCode deps = Go.Ok (code, codeID, passphrase) /\
    cmd.DeriveKey deps passphrase = Go.Ok key /\
    cmd.Encrypt deps patch key = Go.Ok encrypted /\
    ParseDuration ttlStr = Go.Ok ttl /\
    cmd.Send deps codeID (base64.EncodeToString encrypted) (Seconds ttl)
      = Go.Ok resp /\
    sends_of ev = [(codeID, base64.EncodeToString encrypted, Seconds ttl)] /\
    stdout_of ev =
      ("   git-share receive " +:+ code +:+ cmd.nl)
      :: match args with
         | [] => []
         | _ :: _ => ["   git-share receive " +:+ code +:+ " --commit" +:+ cmd.nl]
         end.
Proof.
  intros Hrun. run_cases Hrun.
  all: injection Hrun as <-; subst.
  all: repeat match goal with p : _ * _ |- _ => destruct p end.
  all: do 8 eexists; unfold collected.
  all: repeat split; try eassumption; try reflexivity.
Qed.

(** X18. When [runSendWithDeps] ends with an error or a panic, nothing
    was written to standard output; [Send] was called at most once, and if
    it was called the error is its own, under the prefix "upload failed". *)
Theorem runSend_failure (deps : cmd.sendDeps) (args : list string)
    (staged : bool) (ttlStr : string) (ev : list cmd.event)
    (res : Go.result unit) :
  cmd.runSendWithDeps ParseDuration Seconds Quote deps args staged ttlStr
    = (ev, res) ->
  res <> Go.Ok tt ->
  stdout_of ev = [] /\
  (sends_of ev = [] \/
   exists codeID data ttl,
     sends_of ev = [(codeID, data, ttl)] /\
     match cmd.Send deps codeID data ttl with
     | Go.Ok _ => False
     | Go.Err e => res = Go.Err (Go.wrapf "upload failed" e)
     | Go.Panic => res = Go.Panic
     end).
Proof.
  intros Hrun Hres. run_cases Hrun.
  all: injection Hrun as <- <-; subst.
  all: try (exfalso; apply Hres; reflexivity).
  all: split; [reflexivity|].
  all: first [left; reflexivity | right; do 3 eexists; split; [reflexivity|]].
  all: match goal with H : cmd.Send _ _ _ _ = _ |- _ => rewrite H end.
  all: reflexivity.
Qed.

End send.

Lemma runSend_success_witness :
  exists patch code codeID passphrase key encrypted ttl resp,
    collected sample.mockSendDeps ["HEAD"] false = Go.Ok patch /\
    cmd.GenerateCode sample.mockSendDeps = Go.Ok (code, codeID, passphrase) /\
    cmd.DeriveKey sample.mockSendDeps passphrase = Go.Ok key /\
    cmd.Encrypt sample.mockSendDeps patch key = Go.Ok encrypted /\
    toy.toy_ParseDuration "1h" = Go.Ok ttl /\
    cmd.Send sample.mockSendDeps codeID
      (base64.EncodeToString (Encoding:=toy.plain) encrypted)
      (toy.toy_Seconds ttl) = Go.Ok resp /\
    sends_of (cmd.runSendWithDeps (E:=toy.plain) toy.toy_ParseDuration
                toy.toy_Seconds toy.toy_Quote sample.mockSendDeps
                ["HEAD"] false "1h").1
      = [(codeID, base64.EncodeToString (Encoding:=toy.plain) encrypted,
          toy.toy_Seconds ttl)] /\
    stdout_of (cmd.runSendWithDeps (E:=toy.plain) toy.toy_ParseDuration
                 toy.toy_Seconds toy.toy_Quote sample.mockSendDeps
                 ["HEAD"] false "1h").1
      = ("   git-share receive " +:+ code +:+ cmd.nl)
        :: ["   git-share receive " +:+ code +:+ " --commit" +:+ cmd.nl].
Proof.
  apply (runSend_success (E:=toy.plain) toy.toy_ParseDuration toy.toy_Seconds
           toy.toy_Quote sample.mockSendDeps ["HEAD"] false "1h").
  vm_compute. reflexivity.
Defined.

Lemma runSend_failure_witness :
  stdout_of (cmd.runSendWithDeps (E:=toy.plain) toy.toy_ParseDuration
               toy.toy_Seconds toy.toy_Quote sample.mockSendDeps
               [] true "soon").1 = [] /\
  (sends_of (cmd.runSendWithDeps (E:=toy.plain) toy.toy_ParseDuration
               toy.toy_Seconds toy.toy_Quote sample.mockSendDeps
               [] true "soon").1 = [] \/
   exists codeID data ttl,
     sends_of (cmd.runSendWithDeps (E:=toy.plain) toy.toy_ParseDuration
                 toy.toy_Seconds toy.toy_Quote sample.mockSendDeps
                 [] true "soon").1 = [(codeID, data, ttl)] /\
     match cmd.Send sample.mockSendDeps codeID data ttl with
     | Go.Ok _ => False
     | Go.Err e =>
         @Go.Err unit "invalid TTL soon: time: invalid duration soon"
           = Go.Err (Go.wrapf "upload failed" e)
     | Go.Panic =>
         @Go.Err unit "invalid TTL soon: time: invalid duration soon" = Go.Panic
     end).
Proof.
  apply (runSend_failure (E:=toy.plain) toy.toy_ParseDuration toy.toy_Seconds
           toy.toy_Quote sample.mockSendDeps [] true "soon").
  - vm_compute. reflexivity.
  - discriminate.
Defined.

(** ** The receiver *)

Section receive.
Context {E : base64.Encoding} {A : chacha20poly1305.AEAD} {H : hkdf.HKDF}.

(** X19. [runReceive] asks the relay for a blob only after the code has
    parsed and the repository was found, and for the code ID of the code;
    it applies a patch only if that patch is what [Decrypt] returned for
    the decoded download under the key of the passphrase; and it returns
    without error only if [ApplyPatch] did. *)
Theorem runReceive_applies_decrypted (repo : git.Repo) (serverURL : string)
    (network_Post : string -> client.SendRequest -> client.Exchange)
    (network_Get : string -> client.GetExchange) (receiveCommit : bool)
    (args : list string) (ev : list cmd.event) (res : Go.result unit) :
  cmd.runReceive repo serverURL network_Post network_Get receiveCommit args
    = (ev, res) ->
  (receives_of ev = [] \/
   exists codeID passphrase root,
     crypto.ParseCode (strings.Join args "-") = Go.Ok (codeID, passphrase) /\
     git.FindRepoRoot repo = Go.Ok root /\
     receives_of ev = [codeID]) /\
  (applied_of ev = [] \/
   exists codeID passphrase data encrypted key patch,
     crypto.ParseCode (strings.Join args "-") = Go.Ok (codeID, passphrase) /\
     client.Receive (client.New network_Post serverURL) network_Get codeID
       = Go.Ok data /\
     base64.DecodeString data = Go.Ok encrypted /\
     crypto.DeriveKey passphrase = Go.Ok key /\
     crypto.Decrypt encrypted key = Go.Ok patch /\
     applied_of ev = [(patch, receiveCommit)]) /\
  (res = Go.Ok tt ->
   exists patch,
     applied_of ev = [(patch, receiveCommit)] /\
     git.ApplyPatch repo patch receiveCommit = Go.Ok tt).
Proof.
  intros Hrun. run_cases Hrun.
  all: injection Hrun as <- <-; subst.
  all: repeat match goal with u : unit |- _ => destruct u end.
  all: split; [first [left; reflexivity
                     | right; do 3 eexists; repeat split; try eassumption;
                       reflexivity]|].
  all: split; [first [left; reflexivity
                     | right; do 6 eexists; repeat split; try eassumption;
                       reflexivity]|].
  all: first [discriminate | intros _; eexists; split; [reflexivity | eassumption]].
Qed.

End receive.

Lemma runReceive_applies_decrypted_witness :
  (receives_of
     (cmd.runReceive (E:=toy.plain) (A:=toy.cipher) (H:=toy.kdf) sample.repo
        "http://relay" (fun _ _ => client.PostFailed "unused")
        (fun _ => client.GetFailed "connection refused") false
        ["AaP0z1iH5p-hole-ease-atom-clay"]).1 = [] \/
   exists codeID passphrase root,
     crypto.ParseCode (strings.Join ["AaP0z1iH5p-hole-ease-atom-clay"] "-")
       = Go.Ok (codeID, passphrase) /\
     git.FindRepoRoot sample.repo = Go.Ok root /\
     receives_of
       (cmd.runReceive (E:=toy.plain) (A:=toy.cipher) (H:=toy.kdf) sample.repo
          "http://relay" (fun _ _ => client.PostFailed "unused")
          (fun _ => client.GetFailed "connection refused") false
          ["AaP0z1iH5p-hole-ease-atom-clay"]).1 = [codeID]) /\
  applied_of
    (cmd.runReceive (E:=toy.plain) (A:=toy.cipher) (H:=toy.kdf) sample.repo
       "http://relay" (fun _ _ => client.PostFailed "unused")
       (fun _ => client.GetFailed "connection refused") false
       ["AaP0z1iH5p-hole-ease-atom-clay"]).1 = [].
Proof.
  destruct (runReceive_applies_decrypted (E:=toy.plain) (A:=toy.cipher)
              (H:=toy.kdf) sample.repo "http://relay"
              (fun _ _ => client.PostFailed "unused")
              (fun _ => client.GetFailed "connection refused") false
              ["AaP0z1iH5p-hole-ease-atom-clay"] _ _ eq_refl)
    as (Hrecv & _ & _).
  split; [exact Hrecv | reflexivity].
Defined.

(** ** From the sender's repository to the receiver's *)

Section travel.
Context {R : rand.Reader} {A : chacha20poly1305.AEAD} {H : hkdf.HKDF}
        {E : base64.Encoding}.
Context {RL : rand.ReaderLaws R} {AL : chacha20poly1305.AEADLaws A}
        {HL : hkdf.HKDFLaws H} {EL : base64.EncodingLaws E}.
Variable ParseDuration : string -> Go.result time.Duration.
Variable Seconds : time.Duration -> Z.
Variable Quote : string -> string.

(** What the relay answers when [Send] returns a response: the request
    was stored. *)
Lemma Send_Ok_over_relay config now_put now_resp s len url codeID data
    ttlSeconds resp :
  client.Send
    (client.New (wire.relay_Post config now_put now_resp s len) url)
    codeID data ttlSeconds = Go.Ok resp ->
  server.Decode config
    (server.mkSendBody len (Some (server.mkSendRequest codeID data ttlSeconds)))
    = Some (server.mkSendRequest codeID data ttlSeconds) /\
  server.status
    (server.handleSend config now_put now_resp
       (server.mkSendBody len
          (Some (server.mkSendRequest codeID data ttlSeconds))) s).1
    = server.StatusCreated.
Proof.
  unfold client.Send, client.New, wire.relay_Post.
  cbn [client.httpClient_Post client.baseURL].
  change (wire.request_to_server (client.mkSendRequest codeID data ttlSeconds))
    with (server.mkSendRequest codeID data ttlSeconds).
  rewrite relay_more.handleSend_cases. unfold server.Decode.
  cbn [server.body_len server.body_json].
  destruct (server.MaxSize config <? len); [discriminate|].
  cbn [server.req_CodeID server.req_Data server.req_TTL].
  destruct (String.eqb codeID "" || String.eqb data ""); [discriminate|].
  destruct (server.blobs s !! codeID); [discriminate|].
  intros _. split; reflexivity.
Qed.

(** X20. The whole journey of a patch. If the sender's command, run
    against a relay, returns without error, then the relay holds one blob
    more; and when the receiver's command is run with the printed code
    against that relay, in a repository, before the applied TTL has run
    out, it downloads that blob and calls [ApplyPatch] once, with exactly
    the patch the sender collected, and returns what [ApplyPatch]
    returns. *)
Theorem patch_travels (config : server.Config)
    (now_put now_resp now_recv : time.Time) (s : server.Store) (len : Z)
    (sender receiver : git.Repo) (serverURL receiverURL : string)
    (receiver_Post : string -> client.SendRequest -> client.Exchange)
    (r : rand.state) (args : list string) (staged receiveCommit : bool)
    (ttlStr : string) (ttl : time.Duration) (root : string)
    (ev : list cmd.event) :
  cmd.RunSend ParseDuration Seconds Quote sender serverURL
    (wire.relay_Post config now_put now_resp s len) r args staged ttlStr
    = (ev, Go.Ok tt) ->
  ParseDuration ttlStr = Go.Ok ttl ->
  time.Since now_recv now_put <= applied_ttl config (Seconds ttl) ->
  git.FindRepoRoot receiver = Go.Ok root ->
  exists patch code codeID passphrase data,
    collected (cmd.realSendDeps sender serverURL
                 (wire.relay_Post config now_put now_resp s len) r)
      args staged = Go.Ok patch /\
    (crypto.GenerateCode r).1 = Go.Ok (code, codeID, passphrase) /\
    sends_of ev = [(codeID, data, Seconds ttl)] /\
    forall ev' res',
      cmd.runReceive receiver receiverURL receiver_Post
        (wire.relay_Get now_recv
           (server.handleSend config now_put now_resp
              (server.mkSendBody len
                 (Some (server.mkSendRequest codeID data (Seconds ttl)))) s).2
           codeID)
        receiveCommit [code] = (ev', res') ->
      receives_of ev' = [codeID] /\
      applied_of ev' = [(patch, receiveCommit)] /\
      res' = match git.ApplyPatch receiver patch receiveCommit with
             | Go.Ok _ => Go.Ok tt
             | Go.Err e => Go.Err e
             | Go.Panic => Go.Panic
             end.
Proof.
  intros Hrun Httl Hsoon Hroot. unfold cmd.RunSend in Hrun.
  apply runSend_Ok_inv in Hrun
    as (patch & code & codeID & passphrase & key & encrypted & ttl' & resp
        & Hcol & Hgen & Hkey & Henc & Httl' & Hsend & Hsends).
  rewrite Httl in Httl'. injection Httl' as <-.
  cbn [cmd.GenerateCode cmd.DeriveKey cmd.Encrypt cmd.Send cmd.realSendDeps]
    in Hgen, Hkey, Henc, Hsend.
  exists patch, code, codeID, passphrase, (base64.EncodeToString encrypted).
  split; [exact Hcol|]. split; [exact Hgen|]. split; [exact Hsends|].
  (* the key and the ciphertext *)
  destruct (cipher_spec.DeriveKey_ok passphrase) as (key' & Hkey' & Hlen).
  rewrite Hkey in Hkey'. injection Hkey' as <-.
  destruct (crypto.GenerateCode r) as [gen r1] eqn:Hgen'. cbn [fst snd] in *.
  subst gen.
  pose proof (cipher_spec.Encrypt_run patch key r1 Hlen) as Hencrun.
  destruct (rand.Read chacha20poly1305.NonceSizeX r1) as [[nonce|e|] r2] eqn:Hread;
    rewrite Hencrun in Henc; try discriminate Henc.
  cbn [fst] in Henc. injection Henc as <-.
  pose proof (rand.Read_length _ _ _ _ Hread) as Hnonce.
  (* the relay *)
  apply Send_Ok_over_relay in Hsend as [Hdec Hst].
  destruct (relay_more.receive_after_send config now_put now_resp now_recv _ _ s
              Hdec Hst Hsoon) as [_ Hrecv].
  cbn [server.req_CodeID server.req_Data] in Hrecv.
  (* the receiver *)
  destruct (code_more.ParseCode_generated _ _ _ _ _ Hgen') as [Hparse Hid].
  intros ev' res' Hrun'.
  unfold cmd.runReceive in Hrun'. cbn [strings.Join] in Hrun'.
  rewrite Hparse in Hrun'.
  unfold client.Receive, wire.relay_Get in Hrun'. rewrite Hrecv in Hrun'.
  cbn [fst server.status server.body wire.receive_to_client
         client.recv_OK client.recv_Data server.recv_OK server.recv_Data negb]
    in Hrun'.
  unfold_run Hrun'.
  rewrite Hroot in Hrun'. cbn beta iota zeta in Hrun'.
  rewrite base64.Decode_Encode in Hrun'. cbn beta iota zeta in Hrun'.
  rewrite Hkey in Hrun'. cbn beta iota zeta in Hrun'.
  rewrite (cipher_spec.Decrypt_sealed key nonce patch Hlen Hnonce) in Hrun'.
  cbn beta iota zeta in Hrun'.
  destruct (git.ApplyPatch receiver patch receiveCommit) as [[]|e|];
    cbn beta iota zeta in Hrun';
    try (destruct (negb (String.eqb (git.PatchStats receiver patch) ""));
         cbn beta iota zeta in Hrun');
    injection Hrun' as <- <-; repeat split; reflexivity.
Qed.

End travel.

Lemma patch_travels_witness :
  exists patch code codeID passphrase data,
    collected
      (cmd.realSendDeps (R:=toy.tape) (A:=toy.cipher) (H:=toy.kdf)
         sample.repo "http://relay"
         (wire.relay_Post server.DefaultConfig 0 5 server.NewStore 64)
         toy.sample_tape) [] false = Go.Ok patch /\
    (crypto.GenerateCode (R:=toy.tape) toy.sample_tape).1
      = Go.Ok (code, codeID, passphrase) /\
    sends_of
      (cmd.RunSend (E:=toy.plain) (R:=toy.tape) (A:=toy.cipher) (H:=toy.kdf)
         toy.toy_ParseDuration toy.toy_Seconds toy.toy_Quote sample.repo
         "http://relay"
         (wire.relay_Post server.DefaultConfig 0 5 server.NewStore 64)
         toy.sample_tape [] false "1h").1
      = [(codeID, data, toy.toy_Seconds time.Hour)] /\
    forall ev' res',
      cmd.runReceive (E:=toy.plain) (A:=toy.cipher) (H:=toy.kdf) sample.repo
        "http://relay" (fun _ _ => client.PostFailed "unused")
        (wire.relay_Get (7 * time.Second)
           (server.handleSend server.DefaultConfig 0 5
              (server.mkSendBody 64
                 (Some (server.mkSendRequest codeID data
                          (toy.toy_Seconds time.Hour)))) server.NewStore).2
           codeID)
        true [code] = (ev', res') ->
      receives_of ev' = [codeID] /\
      applied_of ev' = [(patch, true)] /\
      res' = match git.ApplyPatch sample.repo patch true with
             | Go.Ok _ => Go.Ok tt
             | Go.Err e => Go.Err e
             | Go.Panic => Go.Panic
             end.
Proof.
  apply (patch_travels (R:=toy.tape) (A:=toy.cipher) (H:=toy.kdf)
           (E:=toy.plain) (RL:=toy_spec.tape_laws) (AL:=toy_spec.cipher_laws)
           (HL:=toy_spec.kdf_laws) (EL:=plain_laws)
           toy.toy_ParseDuration toy.toy_Seconds toy.toy_Quote
           server.DefaultConfig 0 5 (7 * time.Second) server.NewStore 64
           sample.repo sample.repo "http://relay" "http://relay"
           (fun _ _ => client.PostFailed "unused")
           toy.sample_tape [] false true "1h" time.Hour "/repo").
  - vm_compute. reflexivity.
  - reflexivity.
  - vm_compute. discriminate.
  - reflexivity.
Defined.

(** One journey, run: the sender's command succeeds and prints the
    code. *)
Example diff_content_travels :
  (cmd.RunSend (E:=toy.plain) (R:=toy.tape) (A:=toy.cipher) (H:=toy.kdf)
     toy.toy_ParseDuration toy.toy_Seconds toy.toy_Quote sample.repo
     "http://relay"
     (wire.relay_Post server.DefaultConfig 0 5 server.NewStore 64)
     toy.sample_tape [] false "1h").2 = Go.Ok tt /\
  stdout_of
    (cmd.RunSend (E:=toy.plain) (R:=toy.tape) (A:=toy.cipher) (H:=toy.kdf)
       toy.toy_ParseDuration toy.toy_Seconds toy.toy_Quote sample.repo
       "http://relay"
       (wire.relay_Post server.DefaultConfig 0 5 server.NewStore 64)
       toy.sample_tape [] false "1h").1
    = ["   git-share receive AaP0z1iH5p-hole-ease-atom-clay" +:+ cmd.nl].
Proof. vm_compute. split; reflexivity. Qed.

(** ** parseByteSize *)

Section sizes.
Variable float64 : Type.
Variable TrimSpace : string -> string.
Variable ToUpper : string -> string.
Variable ParseFloat : string -> Go.result float64.
Variable float_mul : float64 -> float64 -> float64.
Variable float_of_Z : Z -> float64.
Variable int64_of_float : float64 -> Z.
Variable Quote : string -> string.

(** X21. [parseByteSize] returns only sizes greater than zero, and only
    for an input that, once trimmed, starts with a digit or a dot and
    whose unit, trimmed and in upper case, is one of B, KB, K, MB, M, GB,
    G or nothing; an input that is empty once trimmed, or that starts
    with anything else, is refused with an error of its own. *)
Theorem parseByteSize_positive (s : string) :
  (forall n,
     cmd.parseByteSize float64 TrimSpace ToUpper ParseFloat float_mul
       float_of_Z int64_of_float Quote s = Go.Ok n ->
     0 < n /\
     (exists c rest, TrimSpace s = String c rest /\ cmd.is_numeric c = true) /\
     TrimSpace
       (ToUpper
          (String.substring (cmd.numeric_end (TrimSpace s))
             (String.length (TrimSpace s) - cmd.numeric_end (TrimSpace s))
             (TrimSpace s)))
       ∈ ["B"; ""; "KB"; "K"; "MB"; "M"; "GB"; "G"]) /\
  (TrimSpace s = "" ->
     cmd.parseByteSize float64 TrimSpace ToUpper ParseFloat float_mul
       float_of_Z int64_of_float Quote s = Go.Err "empty size string") /\
  (forall c rest, TrimSpace s = String c rest -> cmd.is_numeric c = false ->
     cmd.parseByteSize float64 TrimSpace ToUpper ParseFloat float_mul
       float_of_Z int64_of_float Quote s = Go.Err "no numeric value found").
Proof.
  unfold cmd.parseByteSize. split; [|split].
  - intros n.
    destruct (String.eqb_spec (TrimSpace s) "") as [?|Hne]; [discriminate|].
    destruct (TrimSpace s) as [|c rest] eqn:Ht; [contradiction|].
    cbn [cmd.numeric_end].
    destruct (cmd.is_numeric c) eqn:Hc; [|discriminate].
    cbn [Nat.eqb].
    destruct (ParseFloat _) as [num|e|]; try discriminate.
    set (unit := TrimSpace (ToUpper _)).
    assert (Hunit : forall u : string, String.eqb unit u = true -> unit = u)
      by (intros u; apply String.eqb_eq).
    destruct (String.eqb unit "B") eqn:HB;
      [|destruct (String.eqb unit "") eqn:H0;
        [|destruct (String.eqb unit "KB") eqn:HKB;
          [|destruct (String.eqb unit "K") eqn:HK;
            [|destruct (String.eqb unit "MB") eqn:HMB;
              [|destruct (String.eqb unit "M") eqn:HM;
                [|destruct (String.eqb unit "GB") eqn:HGB;
                  [|destruct (String.eqb unit "G") eqn:HG;
                    [|discriminate]]]]]]]];
      cbn [orb];
      match goal with
      | |- context [if ?r <=? 0 then _ else _] =>
          destruct (Z.leb_spec r 0) as [?|Hpos]; [discriminate|]
      end;
      intros [= <-]; (split; [exact Hpos|]); (split; [eauto|]);
      match goal with
      | Heq : String.eqb unit _ = true |- _ =>
          rewrite (Hunit _ Heq); set_solver
      end.
  - intros ->. reflexivity.
  - intros c rest -> Hc. cbn [String.eqb cmd.numeric_end]. rewrite Hc.
    reflexivity.
Qed.

End sizes.

Lemma parseByteSize_positive_witness :
  cmd.parseByteSize Z (fun s => s) (fun s => s) toy.toy_ParseFloat Z.mul
    (fun z => z) (fun z => z) toy.toy_Quote "10MB" = Go.Ok (10 * 1024 * 1024) /\
  0 < 10 * 1024 * 1024.
Proof.
  assert (Hrun : cmd.parseByteSize Z (fun s => s) (fun s => s)
                   toy.toy_ParseFloat Z.mul (fun z => z) (fun z => z)
                   toy.toy_Quote "10MB" = Go.Ok (10 * 1024 * 1024))
    by (vm_compute; reflexivity).
  split; [exact Hrun|].
  destruct (parseByteSize_positive Z (fun s => s) (fun s => s)
              toy.toy_ParseFloat Z.mul (fun z => z) (fun z => z)
              toy.toy_Quote "10MB") as [Hok _].
  exact (proj1 (Hok _ Hrun)).
Defined.

End cmd_spec.
